(** * xlwings bridge: operation dispatch and result normalisation

    A shallow embedding of [scripts/xlwings_bridge.py].  The spreadsheet
    application is an external collaborator: every call into it is an
    event answered by an oracle that may depend on everything that
    happened before.  Handlers are written in a small state-and-exception
    monad whose state is the log of host calls and the lines printed on
    standard output. *)

From Stdlib Require Import String List ZArith Bool Lia.
Import ListNotations.
Open Scope string_scope.
Open Scope list_scope.
Set Warnings "-register-all".

(** ** Python values

    Parameters arrive as decoded JSON, cell contents come back from the
    host, results are dictionaries: all of them are dynamically typed
    Python values.  [VObj] stands for any other scalar object (a float, a
    date): the handlers only ever test such an object for truth and for
    being a list. *)

Inductive value : Type :=
| VNone
| VBool (b : bool)
| VInt (z : Z)
| VStr (s : string)
| VList (items : list value)
| VDict (entries : list (string * value))
| VObj (nonzero : bool) (repr : string).

(** [bool(v)] *)
Definition truthy (v : value) : bool :=
  match v with
  | VNone => false
  | VBool b => b
  | VInt z => negb (Z.eqb z 0)
  | VStr s => negb (String.eqb s "")
  | VList items => match items with [] => false | _ :: _ => true end
  | VDict entries => match entries with [] => false | _ :: _ => true end
  | VObj nonzero _ => nonzero
  end.

(** [isinstance(v, list)] *)
Definition is_list (v : value) : bool :=
  match v with VList _ => true | _ => false end.

Fixpoint lookup (k : string) (entries : list (string * value)) : option value :=
  match entries with
  | [] => None
  | (k', v) :: rest => if String.eqb k k' then Some v else lookup k rest
  end.

(** [d.get(k)] on a value that is a dictionary *)
Definition dict_get (k : string) (d : value) : option value :=
  match d with VDict entries => lookup k entries | _ => None end.

(** ** Exceptions

    Every class below derives from Python's [Exception]; [exn_str] is what
    [str(e)] gives. *)

Inductive exn_class := HostError | TypeError | ImportError | ValueError.

Record exn := Exn { exn_cls : exn_class; exn_str : string }.

(** ** The host application

    Handles are opaque identifiers handed out by the host. *)

Definition app_handle := nat.
Definition book_handle := nat.
Definition sheet_handle := nat.
Definition range_handle := nat.
Definition macro_handle := nat.
Definition chart_handle := nat.

(** One constructor per automation call the script makes, indexed by the
    type of what the call returns. *)
Inductive call : Type -> Type :=
| AppNew : call app_handle                                   (* xw.App(visible=False) *)
| AppQuit (a : app_handle) : call unit                       (* app.quit() *)
| Book (path : value) : call book_handle                     (* xw.Book(file_path) *)
| BooksActive : call (option book_handle)                    (* xw.books.active *)
| SheetsItem (wb : book_handle) (key : value) : call sheet_handle   (* wb.sheets[sheet] *)
| SheetsActive (wb : book_handle) : call sheet_handle               (* wb.sheets.active *)
| Sheets (wb : book_handle) : call (list sheet_handle)              (* iterating wb.sheets *)
| SheetRange (ws : sheet_handle) (addr : value) : call range_handle (* ws.range(addr) *)
| UsedRange (ws : sheet_handle) : call (option range_handle)        (* ws.used_range, None when falsy *)
| RangeValue (r : range_handle) : call value                 (* rng.value *)
| RangeSetValue (r : range_handle) (v : value) : call unit   (* rng.value = data *)
| RowsCount (r : range_handle) : call Z                      (* rng.rows.count *)
| ColumnsCount (r : range_handle) : call Z                   (* rng.columns.count *)
| RangeAddress (r : range_handle) : call string              (* rng.address *)
| RangeLeft (r : range_handle) : call value                  (* rng.left *)
| RangeTop (r : range_handle) : call value                   (* rng.top *)
| BookName (wb : book_handle) : call string                  (* wb.name *)
| BookFullname (wb : book_handle) : call string              (* wb.fullname *)
| SheetName (ws : sheet_handle) : call string                (* ws.name *)
| BookSave (wb : book_handle) : call unit                    (* wb.save() *)
| BookClose (wb : book_handle) : call unit                   (* wb.close() *)
| BookMacro (wb : book_handle) (name : value) : call macro_handle   (* wb.macro(macro_name) *)
| MacroRun (m : macro_handle) (args : list value) : call value (* calling the macro *)
| ChartsAdd (ws : sheet_handle) (left top : value) : call chart_handle (* ws.charts.add(left=, top=) *)
| ChartSetSourceData (ch : chart_handle) (r : range_handle) : call unit
| ChartSetType (ch : chart_handle) (ct : string) : call unit (* chart.chart_type = ct *)
| ChartSetHasTitle (ch : chart_handle) (b : bool) : call unit (* chart.api.HasTitle = True *)
| ChartSetTitleText (ch : chart_handle) (t : value) : call unit. (* chart.api.ChartTitle.Text = title *)

(** A logged host call with its outcome: the exception it raised or the
    value it returned. *)
Inductive event : Type :=
| Ev {R : Type} (c : call R) (outcome : exn + R).

(** The environment of one process run: whether [import xlwings] works,
    the JSON decoder, Python's [str()] and iteration protocol on values
    this model does not look into, the exception (a [UnicodeEncodeError])
    that writing an object with text outside ASCII to standard output
    raises when the stream cannot encode it, and the host's answer to
    each call given the calls made so far. *)
Record Env := {
  xlwings_importable : bool;
  json_loads : string -> exn + value;
  py_str : value -> string;
  py_iter : value -> exn + list value;
  stdout_error : value -> option exn;
  host : forall R : Type, list event -> call R -> exn + R
}.

Record state := { trace : list event; stdout : list value }.

Definition init : state := {| trace := []; stdout := [] |}.

(** ** The monad *)

Definition M (A : Type) : Type := Env -> state -> (exn + A) * state.

Definition ret {A} (a : A) : M A := fun _ st => (inr a, st).

Definition raise {A} (e : exn) : M A := fun _ st => (inl e, st).

Definition bind {A B} (m : M A) (k : A -> M B) : M B :=
  fun env st =>
    match m env st with
    | (inl e, st') => (inl e, st')
    | (inr a, st') => k a env st'
    end.

Notation "x <- m ;; k" := (bind m (fun x => k))
  (at level 61, m at next level, right associativity).
Notation "m ;;; k" := (bind m (fun _ => k))
  (at level 61, right associativity).

(** A computation that only consults the environment. *)
Definition pure {A} (f : Env -> exn + A) : M A := fun env st => (f env, st).

Definition log (st : state) (ev : event) : state :=
  {| trace := trace st ++ [ev]; stdout := stdout st |}.

(** Call the host and log the call with its outcome. *)
Definition perform {R} (c : call R) : M R :=
  fun env st =>
    let outcome := host env R (trace st) c in
    (outcome, log st (Ev c outcome)).

(** [print(json.dumps(obj))] with the default [ensure_ascii]: the text
    written is ASCII whatever [obj] holds, and the encoding itself is
    outside the model. *)
Definition print (obj : value) : M unit :=
  fun _ st => (inr tt, {| trace := trace st; stdout := stdout st ++ [obj] |}).

(** Text made of ASCII characters only. *)
Fixpoint ascii_string (s : string) : bool :=
  match s with
  | EmptyString => true
  | String (Ascii.Ascii _ _ _ _ _ _ _ high) rest => negb high && ascii_string rest
  end.

(** An object whose text, keys included, is ASCII throughout. *)
Fixpoint ascii_only (v : value) : bool :=
  match v with
  | VNone => true
  | VBool _ => true
  | VInt _ => true
  | VStr s => ascii_string s
  | VList items => forallb ascii_only items
  | VDict entries =>
      forallb (fun kv => match kv with (k, x) => ascii_string k && ascii_only x end) entries
  | VObj _ repr => ascii_string repr
  end.

(** What writing [obj] unescaped to standard output raises: nothing for
    ASCII text, which every stream encodes, and otherwise what the
    stream's encoding makes of it. *)
Definition print_error (env : Env) (obj : value) : option exn :=
  if ascii_only obj then None else stdout_error env obj.

(** [print(json.dumps(obj, ensure_ascii=False, ...))]: the text is
    encoded as a whole before any of it is written, so a run either
    prints the object or raises having printed nothing. *)
Definition print_unescaped (obj : value) : M unit :=
  fun env st =>
    match print_error env obj with
    | Some e => (inl e, st)
    | None => (inr tt, {| trace := trace st; stdout := stdout st ++ [obj] |})
    end.

Definition failure (msg : string) : value :=
  VDict [("success", VBool false); ("error", VStr msg)].

(** [try: body / except <classes>: handler] *)
Definition catch {A} (body : M A) (caught : exn -> bool) (handler : exn -> M A) : M A :=
  fun env st =>
    match body env st with
    | (inl e, st') => if caught e then handler e env st' else (inl e, st')
    | (inr a, st') => (inr a, st')
    end.

(** [except Exception]: every class of this model derives from it. *)
Definition any_exception (e : exn) : bool := true.

(** [except ImportError] *)
Definition import_error (e : exn) : bool :=
  match exn_cls e with ImportError => true | _ => false end.

(** [try: body / except Exception as e: return {"success": False, "error": str(e)}] *)
Definition try_except (body : M value) : M value :=
  catch body any_exception (fun e => ret (failure (exn_str e))).

(** [import xlwings as xw] *)
Definition import_xlwings : M unit :=
  pure (fun env =>
          if xlwings_importable env then inr tt
          else inl (Exn ImportError "No module named 'xlwings'")).

(** [str(v)], also what an f-string does with [{v}] *)
Definition str_of (v : value) : M string :=
  pure (fun env => inr (match v with VStr s => s | _ => py_str env v end)).

(** The elements [*v] unpacks to. *)
Definition unpack (v : value) : M (list value) :=
  pure (fun env => match v with VList items => inr items | _ => py_iter env v end).

Fixpoint for_each {A B} (f : A -> M B) (l : list A) : M (list B) :=
  match l with
  | [] => ret []
  | a :: rest => b <- f a ;; bs <- for_each f rest ;; ret (b :: bs)
  end.

Definition when (b : bool) (m : M unit) : M unit := if b then m else ret tt.

(** ** Handlers *)

Definition no_workbook : string := "没有打开的工作簿".

(** The first lines of every handler's [try] block: open the named file,
    or take the active workbook ([None] when there is none). *)
Definition open_or_active (file_path : value) : M (option book_handle) :=
  if truthy file_path then wb <- perform (Book file_path) ;; ret (Some wb)
  else perform BooksActive.

(** [wb.sheets[sheet] if sheet else wb.sheets.active] *)
Definition pick_sheet (wb : book_handle) (sheet : value) : M sheet_handle :=
  if truthy sheet then perform (SheetsItem wb sheet) else perform (SheetsActive wb).

(** The shape coercion of [read_range]:
    a list whose first element is not a list is wrapped once, anything
    that is not a list is wrapped twice, all else is left alone. *)
Definition normalize (data : value) : value :=
  match data with
  | VList items =>
      match items with
      | first :: _ => if negb (is_list first) then VList [data] else data
      | [] => data
      end
  | _ => VList [VList [data]]
  end.

Definition read_range (file_path sheet range_addr as_values : value) : M value :=
  import_xlwings ;;;
  try_except (
    found <- open_or_active file_path ;;
    match found with
    | None => ret (failure no_workbook)
    | Some wb =>
        ws <- pick_sheet wb sheet ;;
        rng <- perform (SheetRange ws range_addr) ;;
        data <- (if truthy as_values
                 then v <- perform (RangeValue rng) ;; ret (normalize v)
                 else v <- perform (RangeValue rng) ;; s <- str_of v ;; ret (VStr s)) ;;
        wb_name <- perform (BookName wb) ;;
        ws_name <- perform (SheetName ws) ;;
        rows <- perform (RowsCount rng) ;;
        cols <- perform (ColumnsCount rng) ;;
        when (truthy file_path) (perform (BookClose wb)) ;;;
        ret (VDict [("success", VBool true);
                    ("data", data);
                    ("workbook", VStr wb_name);
                    ("sheet", VStr ws_name);
                    ("range", range_addr);
                    ("rows", VInt rows);
                    ("cols", VInt cols)])
    end).

Definition write_range (file_path sheet range_addr data save : value) : M value :=
  import_xlwings ;;;
  try_except (
    found <- open_or_active file_path ;;
    match found with
    | None => ret (failure no_workbook)
    | Some wb =>
        ws <- pick_sheet wb sheet ;;
        rng <- perform (SheetRange ws range_addr) ;;
        perform (RangeSetValue rng data) ;;;
        when (truthy save) (perform (BookSave wb)) ;;;
        ws_name <- perform (SheetName ws) ;;
        addr <- str_of range_addr ;;
        wb_name <- perform (BookName wb) ;;
        ws_name' <- perform (SheetName ws) ;;
        when (truthy file_path) (perform (BookClose wb)) ;;;
        ret (VDict [("success", VBool true);
                    ("message", VStr ("已写入 " ++ ws_name ++ "!" ++ addr));
                    ("workbook", VStr wb_name);
                    ("sheet", VStr ws_name')])
    end).

Definition run_macro (file_path macro_name args : value) : M value :=
  import_xlwings ;;;
  try_except (
    found <- open_or_active file_path ;;
    match found with
    | None => ret (failure no_workbook)
    | Some wb =>
        m <- perform (BookMacro wb macro_name) ;;
        result_value <- (if truthy args
                         then actuals <- unpack args ;; perform (MacroRun m actuals)
                         else perform (MacroRun m [])) ;;
        name <- str_of macro_name ;;
        wb_name <- perform (BookName wb) ;;
        when (truthy file_path) (perform (BookClose wb)) ;;;
        ret (VDict [("success", VBool true);
                    ("message", VStr ("宏 '" ++ name ++ "' 执行完成"));
                    ("return_value", result_value);
                    ("workbook", VStr wb_name)])
    end).

(** One iteration of the loop of [get_active_info]. *)
Definition sheet_info (ws : sheet_handle) : M value :=
  used_range <- perform (UsedRange ws) ;;
  name <- perform (SheetName ws) ;;
  address <- match used_range with
             | Some r => a <- perform (RangeAddress r) ;; ret (VStr a)
             | None => ret VNone
             end ;;
  rows <- match used_range with
          | Some r => perform (RowsCount r)
          | None => ret 0%Z
          end ;;
  cols <- match used_range with
          | Some r => perform (ColumnsCount r)
          | None => ret 0%Z
          end ;;
  ret (VDict [("name", VStr name);
              ("used_range", address);
              ("rows", VInt rows);
              ("cols", VInt cols)]).

Definition get_active_info : M value :=
  import_xlwings ;;;
  try_except (
    found <- perform BooksActive ;;
    match found with
    | None => ret (failure no_workbook)
    | Some wb =>
        all <- perform (Sheets wb) ;;
        sheets_info <- for_each sheet_info all ;;
        wb_name <- perform (BookName wb) ;;
        path <- perform (BookFullname wb) ;;
        active <- perform (SheetsActive wb) ;;
        active_name <- perform (SheetName active) ;;
        ret (VDict [("success", VBool true);
                    ("workbook", VStr wb_name);
                    ("path", VStr path);
                    ("sheets", VList sheets_info);
                    ("active_sheet", VStr active_name)])
    end).

Definition list_sheets (file_path : value) : M value :=
  import_xlwings ;;;
  try_except (
    found <- open_or_active file_path ;;
    match found with
    | None => ret (failure no_workbook)
    | Some wb =>
        all <- perform (Sheets wb) ;;
        sheets <- for_each (fun ws => perform (SheetName ws)) all ;;
        wb_name <- perform (BookName wb) ;;
        when (truthy file_path) (perform (BookClose wb)) ;;;
        ret (VDict [("success", VBool true);
                    ("workbook", VStr wb_name);
                    ("sheets", VList (map VStr sheets));
                    ("count", VInt (Z.of_nat (length sheets)))])
    end).

(** The chart-type table of [create_chart]. *)
Definition chart_types : list (string * string) :=
  [("line", "line");
   ("bar", "bar_clustered");
   ("column", "column_clustered");
   ("pie", "pie");
   ("scatter", "xy_scatter");
   ("area", "area")].

Fixpoint assoc (k : string) (table : list (string * string)) : option string :=
  match table with
  | [] => None
  | (k', v) :: rest => if String.eqb k k' then Some v else assoc k rest
  end.

(** [chart_types.get(chart_type, "line")]: a list or a dictionary cannot
    be hashed, and no key of the table equals a value that is not a string. *)
Definition chart_types_get (chart_type : value) : M string :=
  pure (fun _ =>
          match chart_type with
          | VStr s => inr (match assoc s chart_types with Some ct => ct | None => "line" end)
          | VList _ => inl (Exn TypeError "unhashable type: 'list'")
          | VDict _ => inl (Exn TypeError "unhashable type: 'dict'")
          | _ => inr "line"
          end).

Definition create_chart
  (file_path sheet data_range chart_type title position : value) : M value :=
  import_xlwings ;;;
  try_except (
    found <- open_or_active file_path ;;
    match found with
    | None => ret (failure no_workbook)
    | Some wb =>
        ws <- pick_sheet wb sheet ;;
        ct <- chart_types_get chart_type ;;
        anchor <- perform (SheetRange ws position) ;;
        left <- perform (RangeLeft anchor) ;;
        anchor' <- perform (SheetRange ws position) ;;
        top <- perform (RangeTop anchor') ;;
        ch <- perform (ChartsAdd ws left top) ;;
        source <- perform (SheetRange ws data_range) ;;
        perform (ChartSetSourceData ch source) ;;;
        perform (ChartSetType ch ct) ;;;
        when (truthy title)
             (perform (ChartSetHasTitle ch true) ;;;
              perform (ChartSetTitleText ch title)) ;;;
        perform (BookSave wb) ;;;
        ws_name <- perform (SheetName ws) ;;
        pos <- str_of position ;;
        when (truthy file_path) (perform (BookClose wb)) ;;;
        ret (VDict [("success", VBool true);
                    ("message", VStr ("图表已创建在 " ++ ws_name ++ "!" ++ pos));
                    ("chart_type", chart_type);
                    ("data_range", data_range)])
    end).

(** ** The command line *)

(** [check_xlwings()] *)
Definition check_xlwings : M bool :=
  catch (import_xlwings ;;; ret true) import_error (fun _ => ret false).

(** [check_excel()] *)
Definition check_excel : M bool :=
  catch (import_xlwings ;;;
         a <- perform AppNew ;;
         perform (AppQuit a) ;;;
         ret true)
        any_exception (fun _ => ret false).

Definition type_name (v : value) : string :=
  match v with
  | VNone => "NoneType"
  | VBool _ => "bool"
  | VInt _ => "int"
  | VStr _ => "str"
  | VList _ => "list"
  | VDict _ => "dict"
  | VObj _ _ => "float"
  end.

Definition mem (k : string) (names : list string) : bool :=
  existsb (String.eqb k) names.

(** The value a parameter is bound to: the entry of its name, or its default. *)
Definition kwarg (entries : list (string * value)) (name : string) (default : value) : value :=
  match lookup name entries with Some v => v | None => default end.

(** Calling [f] with the keyword arguments of [params], for a function
    [f] all of whose parameters have defaults: [params] must be a mapping whose keys are parameter names;
    [body] receives the lookup of a parameter by name with its default.
    The two faults are raised at the call, outside any handler's [try];
    their texts are CPython's and nothing below depends on them. *)
Definition apply_kwargs (fname : string) (names : list string) (params : value)
  (body : (string -> value -> value) -> M value) : M value :=
  match params with
  | VDict entries =>
      match find (fun kv => negb (mem (fst kv) names)) entries with
      | Some (k, _) =>
          raise (Exn TypeError
                   (fname ++ "() got an unexpected keyword argument '" ++ k ++ "'"))
      | None => body (kwarg entries)
      end
  | _ =>
      raise (Exn TypeError
               (fname ++ "() argument after ** must be a mapping, not " ++ type_name params))
  end.

(** The parameter names of each handler, from its signature. *)
Definition read_range_params : list string :=
  ["file_path"; "sheet"; "range_addr"; "as_values"].
Definition write_range_params : list string :=
  ["file_path"; "sheet"; "range_addr"; "data"; "save"].
Definition run_macro_params : list string :=
  ["file_path"; "macro_name"; "args"].
Definition list_sheets_params : list string :=
  ["file_path"].
Definition create_chart_params : list string :=
  ["file_path"; "sheet"; "data_range"; "chart_type"; "title"; "position"].

(** Each handler called with the parameter bag as keyword arguments,
    with the defaults of its signature. *)
Definition read_range_kw (bag : value) : M value :=
  apply_kwargs "read_range" read_range_params bag
    (fun arg => read_range (arg "file_path" VNone) (arg "sheet" VNone)
                           (arg "range_addr" (VStr "A1")) (arg "as_values" (VBool true))).

Definition write_range_kw (bag : value) : M value :=
  apply_kwargs "write_range" write_range_params bag
    (fun arg => write_range (arg "file_path" VNone) (arg "sheet" VNone)
                            (arg "range_addr" (VStr "A1")) (arg "data" VNone)
                            (arg "save" (VBool true))).

Definition run_macro_kw (bag : value) : M value :=
  apply_kwargs "run_macro" run_macro_params bag
    (fun arg => run_macro (arg "file_path" VNone) (arg "macro_name" (VStr EmptyString))
                          (arg "args" VNone)).

Definition get_active_info_kw (bag : value) : M value :=
  apply_kwargs "get_active_info" [] bag (fun _ => get_active_info).

Definition list_sheets_kw (bag : value) : M value :=
  apply_kwargs "list_sheets" list_sheets_params bag
    (fun arg => list_sheets (arg "file_path" VNone)).

Definition create_chart_kw (bag : value) : M value :=
  apply_kwargs "create_chart" create_chart_params bag
    (fun arg => create_chart (arg "file_path" VNone) (arg "sheet" VNone)
                             (arg "data_range" (VStr "A1:B10"))
                             (arg "chart_type" (VStr "line"))
                             (arg "title" (VStr EmptyString))
                             (arg "position" (VStr "E1"))).

(** The registry of [main]. *)
Definition operations : list (string * (value -> M value)) :=
  [("read", read_range_kw);
   ("write", write_range_kw);
   ("run_macro", run_macro_kw);
   ("get_active", get_active_info_kw);
   ("list_sheets", list_sheets_kw);
   ("create_chart", create_chart_kw)].

Fixpoint operations_get (name : string) (table : list (string * (value -> M value)))
  : option (value -> M value) :=
  match table with
  | [] => None
  | (k, f) :: rest => if String.eqb name k then Some f else operations_get name rest
  end.

(** What [argparse] hands to [main]: [--check], [--operation], [--params]. *)
Record Args := {
  check : bool;
  operation : option string;
  params : option string
}.

(** [json.loads(args.params) if args.params else {}] *)
Definition load_params (text : option string) : M value :=
  match text with
  | Some s =>
      if negb (String.eqb s "")
      then pure (fun env => json_loads env s)
      else ret (VDict [])
  | None => ret (VDict [])
  end.

Definition main (args : Args) : M unit :=
  if check args then
    xlwings_available <- check_xlwings ;;
    excel_available <- (importable <- check_xlwings ;;
                        if importable then check_excel else ret false) ;;
    print_unescaped (VDict [("xlwings_available", VBool xlwings_available);
                            ("excel_available", VBool excel_available)])
  else
    match operation args with
    | None => print (failure "未指定操作")
    | Some name =>
        if String.eqb name "" then print (failure "未指定操作")
        else
          bag <- load_params (params args) ;;
          match operations_get name operations with
          | None => print (failure ("未知操作: " ++ name))
          | Some op_func => result <- op_func bag ;; print_unescaped result
          end
    end.

(** Running the process from a fresh state: what was printed, how the
    process ended, and the host calls it made. *)
Definition run (env : Env) (args : Args) : (exn + unit) * state := main args env init.

(** ** Reading the log *)

(** The host calls that open, change, save or close a document, kept
    only when they returned. *)
Inductive effect :=
| Opened (path : value) (wb : book_handle)
| Wrote (r : range_handle) (v : value)
| MacroRan (m : macro_handle)
| Charted (ch : chart_handle) (ct : string)
| Saved (wb : book_handle)
| Closed (wb : book_handle).

Definition returned {R} (outcome : exn + R) (f : R -> effect) : option effect :=
  match outcome with inr r => Some (f r) | inl _ => None end.

Definition effect_of (e : event) : option effect :=
  match e with
  | @Ev R c outcome =>
      match c in call R return exn + R -> option effect with
      | Book path => fun o => returned o (Opened path)
      | RangeSetValue r v => fun o => returned o (fun _ => Wrote r v)
      | MacroRun m _ => fun o => returned o (fun _ => MacroRan m)
      | ChartSetType ch ct => fun o => returned o (fun _ => Charted ch ct)
      | BookSave wb => fun o => returned o (fun _ => Saved wb)
      | BookClose wb => fun o => returned o (fun _ => Closed wb)
      | _ => fun _ => None
      end outcome
  end.

Fixpoint effects (tr : list event) : list effect :=
  match tr with
  | [] => []
  | e :: rest =>
      match effect_of e with
      | Some x => x :: effects rest
      | None => effects rest
      end
  end.

(** The [wb.save()] calls issued, whatever their outcome. *)
Fixpoint save_calls (tr : list event) : list book_handle :=
  match tr with
  | [] => []
  | Ev c _ :: rest =>
      match c with
      | BookSave wb => wb :: save_calls rest
      | _ => save_calls rest
      end
  end.

(** The exceptions host calls raised. *)
Fixpoint raised (tr : list event) : list exn :=
  match tr with
  | [] => []
  | Ev _ outcome :: rest =>
      match outcome with
      | inl e => e :: raised rest
      | inr _ => raised rest
      end
  end.

(** What [rng.value] returned. *)
Fixpoint values_read (tr : list event) : list value :=
  match tr with
  | [] => []
  | @Ev R c outcome :: rest =>
      match c in call R return exn + R -> list value with
      | RangeValue _ => fun o => match o with inr v => v :: values_read rest | inl _ => values_read rest end
      | _ => fun _ => values_read rest
      end outcome
  end.

(** The calls of the capability probe [check_excel]. *)
Definition probe_call (e : event) : bool :=
  match e with
  | Ev c _ =>
      match c with
      | AppNew => true
      | AppQuit _ => true
      | _ => false
      end
  end.

Definition is_success (r : value) : bool :=
  match dict_get "success" r with
  | Some (VBool true) => true
  | _ => false
  end.

(** ** Shapes of cell payloads *)

Definition is_row (v : value) : bool :=
  match v with
  | VList cells => forallb (fun c => negb (is_list c)) cells
  | _ => false
  end.

Definition row_length (v : value) : nat :=
  match v with VList cells => length cells | _ => 0 end.

(** A list of rows that all have the length of the first. *)
Definition is_grid (v : value) : bool :=
  match v with
  | VList rows =>
      forallb is_row rows &&
      match rows with
      | [] => true
      | first :: _ => forallb (fun r => Nat.eqb (row_length r) (row_length first)) rows
      end
  | _ => false
  end.

(** What the host hands back for a range: a scalar for one cell, a flat
    list for one row or column, a rectangular list of lists otherwise. *)
Definition host_shape (v : value) : bool :=
  negb (is_list v) || is_row v || is_grid v.

(** ** A simulated workbook

    A host without state, enough to run the handlers on concrete input:
    one workbook (open or not) with named sheets, one value in every
    range and named macros. *)

Record workbook := {
  wb_open : bool;
  wb_sheets : list string;
  wb_cell : value;
  wb_macros : list (string * value)
}.

Fixpoint index_of (s : string) (names : list string) : option nat :=
  match names with
  | [] => None
  | n :: rest =>
      if String.eqb s n then Some 0
      else match index_of s rest with Some i => Some (S i) | None => None end
  end.

Definition sim_host (w : workbook) : forall R : Type, list event -> call R -> exn + R :=
  fun R _ c =>
    match c in call R return exn + R with
    | AppNew => inr 0
    | AppQuit _ => inr tt
    | Book _ => inr 0
    | BooksActive => inr (if wb_open w then Some 0 else None)
    | SheetsItem _ key =>
        match key with
        | VStr s =>
            match index_of s (wb_sheets w) with
            | Some i => inr i
            | None => inl (Exn HostError ("no sheet named " ++ s))
            end
        | _ => inl (Exn HostError "bad sheet index")
        end
    | SheetsActive _ => inr 0
    | Sheets _ => inr (seq 0 (length (wb_sheets w)))
    | SheetRange _ _ => inr 0
    | UsedRange _ => inr (Some 0)
    | RangeValue _ => inr (wb_cell w)
    | RangeSetValue _ _ => inr tt
    | RowsCount _ => inr 1%Z
    | ColumnsCount _ => inr 1%Z
    | RangeAddress _ => inr "$A$1"
    | RangeLeft _ => inr (VInt 0)
    | RangeTop _ => inr (VInt 0)
    | BookName _ => inr "book.xlsx"
    | BookFullname _ => inr "/tmp/book.xlsx"
    | SheetName ws => inr (nth ws (wb_sheets w) "")
    | BookSave _ => inr tt
    | BookClose _ => inr tt
    | BookMacro _ name =>
        match name with
        | VStr s =>
            match index_of s (map fst (wb_macros w)) with
            | Some i => inr i
            | None => inl (Exn HostError ("cannot run the macro " ++ s))
            end
        | _ => inl (Exn HostError "bad macro name")
        end
    | MacroRun m _ => inr (nth m (map snd (wb_macros w)) VNone)
    | ChartsAdd _ _ _ => inr 0
    | ChartSetSourceData _ _ => inr tt
    | ChartSetType _ _ => inr tt
    | ChartSetHasTitle _ _ => inr tt
    | ChartSetTitleText _ _ => inr tt
    end.

Definition quote : string := String (Ascii.ascii_of_nat 34) EmptyString.

(** The text of a JSON object with the one key [bogus]. *)
Definition bogus_params : string := "{" ++ quote ++ "bogus" ++ quote ++ ": 1}".

(** The text of a JSON object that sets [as_values] to false. *)
Definition raw_params : string := "{" ++ quote ++ "as_values" ++ quote ++ ": false}".

(** A JSON decoder for the handful of texts the examples use. *)
Definition sim_loads (s : string) : exn + value :=
  if String.eqb s "{}" then inr (VDict [])
  else if String.eqb s "[1]" then inr (VList [VInt 1])
  else if String.eqb s bogus_params then inr (VDict [("bogus", VInt 1)])
  else if String.eqb s raw_params then inr (VDict [("as_values", VBool false)])
  else inl (Exn ValueError "Expecting value: line 1 column 1 (char 0)").

Definition sim_env (importable : bool) (w : workbook) : Env :=
  {| xlwings_importable := importable;
     json_loads := sim_loads;
     py_str := fun _ => "?";
     py_iter := fun _ => inl (Exn TypeError "argument after * must be an iterable");
     stdout_error := fun _ => None;
     host := sim_host w |}.

(** The same host behind a standard output that encodes ASCII only
    ([UnicodeEncodeError] derives from [ValueError]). *)
Definition narrow_env (w : workbook) : Env :=
  {| xlwings_importable := true;
     json_loads := sim_loads;
     py_str := fun _ => "?";
     py_iter := fun _ => inl (Exn TypeError "argument after * must be an iterable");
     stdout_error := fun _ => Some (Exn ValueError "'ascii' codec can't encode characters");
     host := sim_host w |}.

Definition three_sheets : workbook :=
  {| wb_open := true;
     wb_sheets := ["Sheet1"; "Summary"; "Data"];
     wb_cell := VInt 42;
     wb_macros := [("Refresh", VNone)] |}.

Definition no_documents : workbook :=
  {| wb_open := false; wb_sheets := []; wb_cell := VNone; wb_macros := [] |}.

(** ** Properties stated over runs *)

(** Opening, saving and closing: the life of a document handle. *)
Definition lifecycle_step (x : effect) : bool :=
  match x with
  | Opened _ _ => true
  | Saved _ => true
  | Closed _ => true
  | _ => false
  end.

Definition lifecycle (tr : list event) : list effect :=
  filter lifecycle_step (effects tr).

(** The document a handler works on: what its first host call, opening a
    file or asking for the active workbook, returned. *)
Definition resolved_book (tr : list event) : option book_handle :=
  match tr with
  | @Ev R c outcome :: _ =>
      match c in call R return exn + R -> option book_handle with
      | Book _ => fun o => match o with inr wb => Some wb | inl _ => None end
      | BooksActive => fun o => match o with inr found => found | inl _ => None end
      | _ => fun _ => None
      end outcome
  | [] => None
  end.

(** A handler run on a file it opened itself: a success has opened the
    file, saved it when [saves] says so, and closed it, in this order; any
    other outcome has closed nothing. *)
Definition bridge_owned (file_path : value) (saves : bool) (handler : M value) : Prop :=
  forall env,
    match handler env init with
    | (inr r, st) =>
        if is_success r
        then exists wb,
            lifecycle (trace st)
            = Opened file_path wb :: (if saves then [Saved wb] else []) ++ [Closed wb]
        else forall wb, ~ In (Closed wb) (lifecycle (trace st))
    | (inl _, st) => forall wb, ~ In (Closed wb) (lifecycle (trace st))
    end.

(** A result object: the success fields of an operation, or a single
    error string. *)
Definition result_object (r : value) : Prop :=
  is_success r = true \/ exists msg, r = failure msg.

Definition signatures : list (string * list string) :=
  [("read", read_range_params);
   ("write", write_range_params);
   ("run_macro", run_macro_params);
   ("get_active", []);
   ("list_sheets", list_sheets_params);
   ("create_chart", create_chart_params)].

Fixpoint signature_of (name : string) (table : list (string * list string))
  : option (list string) :=
  match table with
  | [] => None
  | (k, names) :: rest => if String.eqb name k then Some names else signature_of name rest
  end.

(** Invocations in operation mode that reach a handler's [try] block or
    one of the two error prints of [main]: no operation name at all, or a
    parameter text that decodes and, for a registered operation, an
    importable xlwings and a decoded object whose keys the handler's
    signature has. *)
Definition accepted (env : Env) (args : Args) : Prop :=
  match operation args with
  | None => True
  | Some name =>
      name = EmptyString \/
      exists bag,
        fst (load_params (params args) env init) = inr bag /\
        match signature_of name signatures with
        | None => True
        | Some names =>
            xlwings_importable env = true /\
            exists entries,
              bag = VDict entries /\
              forall k, In k (map fst entries) -> In k names
        end
  end.

(** The chart-type names the table knows. *)
Definition recognized : list string := map fst chart_types.

(** [d[k] = v] on a dictionary that has the key [k]. *)
Fixpoint set_entry (k : string) (v : value) (entries : list (string * value))
  : list (string * value) :=
  match entries with
  | [] => []
  | (k', v') :: rest =>
      if String.eqb k k' then (k', v) :: rest else (k', v') :: set_entry k v rest
  end.

Definition dict_set (k : string) (v : value) (d : value) : value :=
  match d with VDict entries => VDict (set_entry k v entries) | _ => d end.

(** The result of a run with the chart type [ct], read off the result
    [r0] of the run with another: a success echoes [ct]. *)
Definition echoing (ct : value) (r0 : value) : value :=
  if is_success r0 then dict_set "chart_type" ct r0 else r0.

(** Two runs that made the same host calls and ended the same way, up to
    [f] on the value returned. *)
Definition same_up_to (f : value -> value) (x y : (exn + value) * state) : Prop :=
  snd x = snd y /\
  match fst y with
  | inr r0 => fst x = inr (f r0)
  | inl e => fst x = inl e
  end.

(** A computation that prints nothing and that, when a host call of its
    own raised, ends with that exception. *)
Definition faithful {A} (m : M A) : Prop :=
  forall env st,
    stdout (snd (m env st)) = stdout st /\
    forall e, In e (raised (trace (snd (m env st)))) ->
              In e (raised (trace st)) \/ fst (m env st) = inl e.

(** A computation that, when it returns, returns a result object. *)
Definition returns_result (m : M value) : Prop :=
  forall env st,
    match fst (m env st) with
    | inr r => result_object r
    | inl _ => True
    end.

(** The outcome of a handler run from [st]: it returned a result object,
    printed nothing, and the result is the failure with the message of
    whatever a host call of the run raised. *)
Definition handled (st : state) (run : (exn + value) * state) : Prop :=
  exists r st',
    run = (inr r, st') /\
    stdout st' = stdout st /\
    result_object r /\
    forall e, In e (raised (trace st')) ->
              In e (raised (trace st)) \/ r = failure (exn_str e).

(** ** Further readings of the log *)

(** Host calls that change a document, its charts or the file on disk,
    whatever their outcome. *)
Definition mutating_call (e : event) : bool :=
  match e with
  | Ev c _ =>
      match c with
      | RangeSetValue _ _ => true
      | MacroRun _ _ => true
      | ChartsAdd _ _ _ => true
      | ChartSetSourceData _ _ => true
      | ChartSetType _ _ => true
      | ChartSetHasTitle _ _ => true
      | ChartSetTitleText _ _ => true
      | BookSave _ => true
      | _ => false
      end
  end.

(** Host calls that open a file or close a workbook, whatever their outcome. *)
Definition owning_call (e : event) : bool :=
  match e with
  | Ev c _ =>
      match c with
      | Book _ => true
      | BookClose _ => true
      | _ => false
      end
  end.

(** The changes among the effects: everything but opening and closing. *)
Definition changing (x : effect) : bool :=
  match x with
  | Wrote _ _ => true
  | MacroRan _ => true
  | Charted _ _ => true
  | Saved _ => true
  | _ => false
  end.

Definition changes (tr : list event) : list effect := filter changing (effects tr).

(** The [ws.charts.add] calls issued. *)
Fixpoint chart_calls (tr : list event) : list sheet_handle :=
  match tr with
  | [] => []
  | Ev c _ :: rest =>
      match c with
      | ChartsAdd ws _ _ => ws :: chart_calls rest
      | _ => chart_calls rest
      end
  end.

(** The calls that give a chart its title, in the order issued:
    [inl b] for [HasTitle = b], [inr t] for [ChartTitle.Text = t]. *)
Fixpoint title_calls (tr : list event) : list (bool + value) :=
  match tr with
  | [] => []
  | Ev c _ :: rest =>
      match c with
      | ChartSetHasTitle _ b => inl b :: title_calls rest
      | ChartSetTitleText _ t => inr t :: title_calls rest
      | _ => title_calls rest
      end
  end.

(** The macro runs issued: the macro, its actual arguments, the outcome. *)
Fixpoint macro_runs (tr : list event) : list (macro_handle * list value * (exn + value)) :=
  match tr with
  | [] => []
  | @Ev R c outcome :: rest =>
      match c in call R
            return exn + R -> list (macro_handle * list value * (exn + value)) with
      | MacroRun m actuals => fun o => (m, actuals, o) :: macro_runs rest
      | _ => fun _ => macro_runs rest
      end outcome
  end.

(** A computation that prints nothing and issues only host calls that
    [allowed] lets through. *)
Definition confined (allowed : event -> bool) {A} (m : M A) : Prop :=
  forall env st,
    exists evs,
      snd (m env st) = {| trace := trace st ++ evs; stdout := stdout st |} /\
      forallb allowed evs = true.

Definition any_call (e : event) : bool := true.

Definition read_only_call (e : event) : bool := negb (mutating_call e).

Definition shared_call (e : event) : bool := negb (owning_call e).

(** A computation that prints one object when it returns and nothing
    when it raises. *)
Definition prints_once {A} (m : M A) : Prop :=
  forall env st,
    match m env st with
    | (inr _, st') => exists obj, stdout st' = stdout st ++ [obj]
    | (inl _, st') => stdout st' = stdout st
    end.

(** The names in the registry of [main]. *)
Definition registered : list string := map fst operations.

(** Values that cannot be a dictionary key. *)
Definition unhashable (v : value) : bool :=
  match v with
  | VList _ => true
  | VDict _ => true
  | _ => false
  end.

(** The changes a run of [write_range] may have made, in order: none,
    the write of [data], or the write of [data] and then the save of the
    resolved workbook. *)
Definition write_then_save (data : value) (tr : list event) : Prop :=
  match changes tr with
  | [] => save_calls tr = []
  | [Wrote _ v] => v = data
  | [Wrote _ v; Saved wb] => v = data /\ resolved_book tr = Some wb
  | _ => False
  end.

(** The changes a run of [create_chart] may have made, in order: none,
    the chart type set, or the chart type set and then the save of the
    resolved workbook. *)
Definition chart_then_save (tr : list event) : Prop :=
  match changes tr with
  | [] => save_calls tr = []
  | [Charted _ _] => True
  | [Charted _ _; Saved wb] => resolved_book tr = Some wb
  | _ => False
  end.

(** What the probe of [check_excel] finds on a host: an application
    that starts and then quits. *)
Definition probe_succeeds (env : Env) : bool :=
  match host env app_handle [] AppNew with
  | inr a =>
      match host env unit [Ev AppNew (inr a)] (AppQuit a) with
      | inr _ => true
      | inl _ => false
      end
  | inl _ => false
  end.

(** What [try_except] makes of the outcome of its body. *)
Definition convert (x : (exn + value) * state) : (exn + value) * state :=
  match x with
  | (inl e, st') => (inr (failure (exn_str e)), st')
  | (inr r, st') => (inr r, st')
  end.

(** * Proofs *)

(** ** The log under concatenation *)

Lemma effects_app (a b : list event) : effects (a ++ b) = effects a ++ effects b.
Proof.
  induction a as [|e a IH]; cbn; [reflexivity|].
  destruct (effect_of e); cbn; now rewrite IH.
Qed.

Lemma raised_app (a b : list event) : raised (a ++ b) = raised a ++ raised b.
Proof.
  induction a as [|[R c [e|r]] a IH]; cbn; now rewrite ?IH.
Qed.


(** ** Stepping through a handler

    One equation per way a handler continues; the continuation stays
    folded until the step before it is settled. *)

Section Steps.

Context {A B : Type}.
Variables (env : Env) (st : state) (k : A -> M B).

Lemma bind_run (m : M A) :
  bind m k env st
  = match m env st with
    | (inl e, st') => (inl e, st')
    | (inr a, st') => k a env st'
    end.
Proof. reflexivity. Qed.

Lemma bind_ret (a : A) : bind (ret a) k env st = k a env st.
Proof. reflexivity. Qed.

Lemma bind_raise (e : exn) : bind (raise e) k env st = (inl e, st).
Proof. reflexivity. Qed.

Lemma bind_pure (f : Env -> exn + A) :
  bind (pure f) k env st
  = match f env with
    | inl e => (inl e, st)
    | inr a => k a env st
    end.
Proof. unfold bind, pure. now destruct (f env). Qed.

Lemma bind_perform (c : call A) :
  bind (perform c) k env st
  = match host env A (trace st) c with
    | inl e => (inl e, log st (Ev c (inl e)))
    | inr a => k a env (log st (Ev c (inr a)))
    end.
Proof. unfold bind, perform. cbv zeta. now destruct (host env A (trace st) c). Qed.

Lemma bind_assoc {C} (m : M C) (f : C -> M A) :
  bind (bind m f) k env st = bind m (fun x => bind (f x) k) env st.
Proof. unfold bind. now destruct (m env st) as [[e|c] st']. Qed.

Lemma pure_cases (f : Env -> exn + A) :
  (exists e, f env = inl e /\ bind (pure f) k env st = (inl e, st)) \/
  (exists a, f env = inr a /\ bind (pure f) k env st = k a env st).
Proof.
  rewrite bind_pure. destruct (f env) as [e|a]; [left|right]; eauto.
Qed.

Lemma perform_cases (c : call A) :
  (exists e, host env A (trace st) c = inl e /\
             bind (perform c) k env st = (inl e, log st (Ev c (inl e)))) \/
  (exists a, host env A (trace st) c = inr a /\
             bind (perform c) k env st = k a env (log st (Ev c (inr a)))).
Proof.
  rewrite bind_perform. destruct (host env A (trace st) c) as [e|a]; [left|right]; eauto.
Qed.

End Steps.

Lemma try_except_run (body : M value) env st :
  try_except body env st = convert (body env st).
Proof.
  unfold try_except, catch, convert, any_exception, ret.
  now destruct (body env st) as [[e|r] st'].
Qed.

(** A handler is its import followed by its guarded body. *)
Lemma import_then_try (body : M value) env st :
  bind import_xlwings (fun _ => try_except body) env st
  = if xlwings_importable env then convert (body env st)
    else (inl (Exn ImportError "No module named 'xlwings'"), st).
Proof.
  unfold import_xlwings. rewrite bind_pure.
  destruct (xlwings_importable env); [apply try_except_run | reflexivity].
Qed.

Ltac open_handler :=
  unfold read_range, write_range, run_macro, get_active_info, list_sheets, create_chart;
  rewrite import_then_try;
  unfold open_or_active, pick_sheet, when, chart_types_get, str_of, unpack.

(** One step of the body: the next host call is answered either way, a
    computation on the environment either raises or returns. *)
Ltac step :=
  first
    [ rewrite bind_assoc
    | rewrite bind_ret
    | rewrite bind_raise
    | match goal with
      | |- context [bind (perform ?c) ?k ?e ?s] =>
          let H := fresh "Hhost" in
          destruct (perform_cases e s k c) as [(? & H & ->) | (? & H & ->)]
      end
    | match goal with
      | |- context [bind (pure ?f) ?k ?e ?s] =>
          let H := fresh "Hpure" in
          destruct (pure_cases e s k f) as [(? & H & ->) | (? & H & ->)];
          cbv beta in H; try discriminate H;
          try (injection H as <-)
      end ];
  cbv beta iota.

(** Case analysis on what [xw.books.active] found. *)
Ltac found_or_not :=
  match goal with
  | |- context [match ?x with Some _ => _ | None => _ end] => is_var x; destruct x
  end.

Ltac finish := unfold ret, convert; cbn.

Ltac nothing_closed :=
  let wb := fresh "wb" in
  let H := fresh "H" in
  intros wb H; cbn in H; intuition discriminate.

(** Reading off the outcome a run was assumed to have. *)
Ltac conclude :=
  finish; intros;
  match goal with
  | H : (_, _) = (_, _) |- _ => inversion H; subst; clear H
  end;
  try match goal with
      | H : is_success _ = true |- _ => cbn in H; try discriminate H
      end;
  cbn.

(** ** Closing what was opened *)

Lemma read_range_owned fp sh ra av :
  truthy fp = true -> bridge_owned fp false (read_range fp sh ra av).
Proof.
  intros Hfp env. open_handler. rewrite Hfp.
  destruct (xlwings_importable env); [|nothing_closed].
  destruct (truthy sh), (truthy av); cbv beta iota;
    repeat step; finish; try nothing_closed; eexists; reflexivity.
Qed.

Lemma write_range_owned fp sh ra data save :
  truthy fp = true -> bridge_owned fp (truthy save) (write_range fp sh ra data save).
Proof.
  intros Hfp env. open_handler. rewrite Hfp.
  destruct (xlwings_importable env); [|nothing_closed].
  destruct (truthy sh), (truthy save); cbv beta iota;
    repeat step; finish; try nothing_closed; eexists; reflexivity.
Qed.

Lemma run_macro_owned fp name args :
  truthy fp = true -> bridge_owned fp false (run_macro fp name args).
Proof.
  intros Hfp env. open_handler. rewrite Hfp.
  destruct (xlwings_importable env); [|nothing_closed].
  destruct (truthy args); cbv beta iota;
    repeat step; finish; try nothing_closed; eexists; reflexivity.
Qed.

Lemma create_chart_owned fp sh dr ct title pos :
  truthy fp = true -> bridge_owned fp true (create_chart fp sh dr ct title pos).
Proof.
  intros Hfp env. open_handler. rewrite Hfp.
  destruct (xlwings_importable env); [|nothing_closed].
  destruct (truthy sh), (truthy title); cbv beta iota;
    repeat step; finish; try nothing_closed; eexists; reflexivity.
Qed.

(** ** The comprehension of [list_sheets] *)

Section SheetNames.

Variable env : Env.

(** Asking the sheets for their names only extends the log, with calls
    that change nothing, and raises what the host raised. *)
Lemma sheet_names_log (l : list sheet_handle) :
  forall st out st',
    for_each (fun ws : sheet_handle => perform (SheetName ws)) l env st = (out, st') ->
    stdout st' = stdout st /\
    exists evs,
      trace st' = trace st ++ evs /\
      effects evs = [] /\
      save_calls evs = [] /\
      raised evs = match out with inl e => [e] | inr _ => [] end.
Proof.
  induction l as [|ws l IH]; intros st out st' H.
  - inversion H; subst. split; [reflexivity|].
    exists []. now rewrite app_nil_r.
  - cbn [for_each] in H. rewrite bind_perform in H.
    destruct (host env string (trace st) (SheetName ws)) as [e|n].
    + inversion H; subst. split; [reflexivity|].
      eexists; split; [reflexivity|]. cbn. auto.
    + rewrite bind_run in H.
      match type of H with
      | context [for_each ?f l env ?s] =>
          destruct (for_each f l env s) as [[e'|ns] st1] eqn:E1;
          apply IH in E1; cbn in E1; destruct E1 as (Hout & evs & Htr & He & Hs & Hr)
      end; inversion H; subst; (split; [assumption|]);
        exists (Ev (SheetName ws) (inr n) :: evs);
        rewrite Htr, <- app_assoc; cbn; rewrite He, Hs, Hr; auto.
Qed.

(** On a document whose sheets keep their names, the names come back in
    the order of the sheets. *)
Lemma sheet_names_in_order (name_of : sheet_handle -> string) (l : list sheet_handle) :
  (forall t ws, In ws l -> host env string t (SheetName ws) = inr (name_of ws)) ->
  forall st,
    fst (for_each (fun ws : sheet_handle => perform (SheetName ws)) l env st)
    = inr (map name_of l).
Proof.
  induction l as [|ws l IH]; intros Hnames st; [reflexivity|].
  cbn [for_each map]. rewrite bind_perform, Hnames by now left.
  rewrite bind_run.
  match goal with
  | |- context [for_each ?f l env ?s] =>
      specialize (IH (fun t ws' Hin => Hnames t ws' (or_intror Hin)) s);
      destruct (for_each f l env s) as [out st1]
  end.
  cbn in IH. subst out. reflexivity.
Qed.

End SheetNames.

(** The step of [list_sheets] through its comprehension. *)
Ltac ask_names :=
  rewrite bind_run;
  match goal with
  | |- context [for_each ?f ?l ?e ?s] =>
      let E := fresh "Enames" in
      destruct (for_each f l e s) as [[?e|names] [tr out]] eqn:E;
      apply sheet_names_log in E; cbn [trace stdout log] in E;
      destruct E as (_ & evs & -> & Heff & Hsaves & Hraised)
  end; cbv beta iota.

Lemma list_sheets_owned fp :
  truthy fp = true -> bridge_owned fp false (list_sheets fp).
Proof.
  intros Hfp env. open_handler. rewrite Hfp.
  destruct (xlwings_importable env); [|nothing_closed].
  cbv beta iota. repeat step; try (finish; nothing_closed).
  ask_names.
  - finish. intros wb H. unfold lifecycle in H. cbn in H.
    rewrite Heff in H. cbn in H. intuition discriminate.
  - repeat step; finish; unfold lifecycle; cbn; rewrite ?effects_app, ?Heff; cbn;
      try (intros wb H; intuition discriminate); eexists; reflexivity.
Qed.

(** C4, as the code has it: a handler given an explicit file path closes
    the workbook it opened at the end of its success path, after the save
    of [write_range] (when its save flag holds) and of [create_chart],
    and with no save at all for [read_range], [run_macro], [list_sheets]
    and a [write_range] whose save flag is false; when the handler fails,
    or the import before it does, no close has been carried out. *)
Theorem explicit_path_closed_on_success_only (file_path : value) :
  truthy file_path = true ->
  (forall sheet range_addr as_values,
      bridge_owned file_path false (read_range file_path sheet range_addr as_values)) /\
  (forall sheet range_addr data save,
      bridge_owned file_path (truthy save)
        (write_range file_path sheet range_addr data save)) /\
  (forall macro_name args,
      bridge_owned file_path false (run_macro file_path macro_name args)) /\
  bridge_owned file_path false (list_sheets file_path) /\
  (forall sheet data_range chart_type title position,
      bridge_owned file_path true
        (create_chart file_path sheet data_range chart_type title position)).
Proof.
  intro Hfp. repeat split; intros.
  - now apply read_range_owned.
  - now apply write_range_owned.
  - now apply run_macro_owned.
  - now apply list_sheets_owned.
  - now apply create_chart_owned.
Qed.

Lemma explicit_path_closed_on_success_only_witness :
  truthy (VStr "book.xlsx") = true /\
  bridge_owned (VStr "book.xlsx") true
    (write_range (VStr "book.xlsx") VNone (VStr "A1") (VInt 1) (VBool true)).
Proof.
  split; [reflexivity|].
  apply (explicit_path_closed_on_success_only (VStr "book.xlsx")). reflexivity.
Defined.

(** C4 as stated fails: on a file the bridge opened, a write with a
    false save flag and a macro run both succeed and close the workbook
    without any save call. *)
Lemma success_closes_without_saving :
  (exists r,
      fst (write_range (VStr "book.xlsx") VNone (VStr "A1") (VInt 1) (VBool false)
             (sim_env true three_sheets) init) = inr r /\
      is_success r = true) /\
  effects (trace (snd (write_range (VStr "book.xlsx") VNone (VStr "A1") (VInt 1)
                         (VBool false) (sim_env true three_sheets) init)))
  = [Opened (VStr "book.xlsx") 0; Wrote 0 (VInt 1); Closed 0] /\
  save_calls (trace (snd (write_range (VStr "book.xlsx") VNone (VStr "A1") (VInt 1)
                            (VBool false) (sim_env true three_sheets) init)))
  = [] /\
  (exists r,
      fst (run_macro (VStr "book.xlsx") (VStr "Refresh") VNone
             (sim_env true three_sheets) init) = inr r /\
      is_success r = true) /\
  effects (trace (snd (run_macro (VStr "book.xlsx") (VStr "Refresh") VNone
                         (sim_env true three_sheets) init)))
  = [Opened (VStr "book.xlsx") 0; MacroRan 0; Closed 0] /\
  save_calls (trace (snd (run_macro (VStr "book.xlsx") (VStr "Refresh") VNone
                            (sim_env true three_sheets) init)))
  = [].
Proof.
  repeat split; try (eexists; split; reflexivity).
Qed.

(** ** No active workbook *)

(** C6: without a file path, on a host that reports no active workbook,
    each of the six handlers returns the failure result with the
    no-workbook message after that single host call; nothing is raised. *)
Theorem no_active_workbook_is_a_failure_result (env : Env) (file_path : value) :
  xlwings_importable env = true ->
  host env (option book_handle) [] BooksActive = inr None ->
  truthy file_path = false ->
  let idle := (inr (failure no_workbook) : exn + value,
               log init (Ev BooksActive (inr None))) in
  (forall sheet range_addr as_values,
      read_range file_path sheet range_addr as_values env init = idle) /\
  (forall sheet range_addr data save,
      write_range file_path sheet range_addr data save env init = idle) /\
  (forall macro_name args, run_macro file_path macro_name args env init = idle) /\
  get_active_info env init = idle /\
  list_sheets file_path env init = idle /\
  (forall sheet data_range chart_type title position,
      create_chart file_path sheet data_range chart_type title position env init = idle).
Proof.
  intros Himp Hnone Hfp idle. subst idle.
  repeat split; intros; open_handler; rewrite ?Hfp, Himp;
    rewrite bind_perform; cbn [trace init]; rewrite Hnone; reflexivity.
Qed.

Lemma no_active_workbook_is_a_failure_result_witness :
  get_active_info (sim_env true no_documents) init
  = (inr (failure no_workbook), log init (Ev BooksActive (inr None))).
Proof.
  apply (no_active_workbook_is_a_failure_result (sim_env true no_documents) VNone);
    reflexivity.
Defined.

(** ** Errors of the host in [run_macro] *)

(** C7: whenever a host call made by [run_macro] raises, be it the lookup
    of the macro, its run or any other call, the handler returns the
    failure result whose error is [str(e)] of that very exception. *)
Theorem run_macro_passes_host_message_through
  (env : Env) (file_path macro_name args : value) (out : exn + value) (st : state) (e : exn) :
  run_macro file_path macro_name args env init = (out, st) ->
  In e (raised (trace st)) ->
  out = inr (failure (exn_str e)).
Proof.
  revert out st e. open_handler.
  destruct (xlwings_importable env);
    [|intros out st e H; inversion H; subst; cbn; tauto].
  destruct (truthy file_path), (truthy args); cbv beta iota;
    repeat step; try found_or_not; repeat step; finish;
    intros out st e H Hin; inversion H; subst; clear H; cbn in Hin;
    intuition (subst; reflexivity).
Qed.

Lemma run_macro_passes_host_message_through_witness :
  fst (run_macro VNone (VStr "Missing") VNone (sim_env true three_sheets) init)
  = inr (failure "cannot run the macro Missing").
Proof.
  apply (run_macro_passes_host_message_through (sim_env true three_sheets)
           VNone (VStr "Missing") VNone _
           (snd (run_macro VNone (VStr "Missing") VNone (sim_env true three_sheets) init))
           (Exn HostError "cannot run the macro Missing")).
  - reflexivity.
  - cbn. left. reflexivity.
Defined.

(** ** Saving *)

Lemma saved_was_called (wb : book_handle) (tr : list event) :
  In (Saved wb) (effects tr) -> In wb (save_calls tr).
Proof.
  induction tr as [|[R c o] tr IH]; cbn; [tauto|].
  destruct c; cbn; auto; destruct o; cbn; auto;
    intros [H|H]; try discriminate H; auto.
  injection H as ->. now left.
Qed.

(** What a run of [write_range] did to the document, by its save flag. *)
Lemma write_range_saving env fp sh ra data save out st :
  write_range fp sh ra data save env init = (out, st) ->
  (truthy save = false -> save_calls (trace st) = []) /\
  (truthy save = true ->
   forall r, out = inr r -> is_success r = true ->
   exists wb rng,
     resolved_book (trace st) = Some wb /\
     effects (trace st)
     = (if truthy fp then [Opened fp wb] else [])
         ++ [Wrote rng data; Saved wb]
         ++ (if truthy fp then [Closed wb] else [])).
Proof.
  revert out st. open_handler.
  destruct (xlwings_importable env);
    [|intros out st H; inversion H; subst; split; [reflexivity | discriminate]].
  destruct (truthy fp), (truthy sh), (truthy save); cbv beta iota;
    repeat step; try found_or_not; repeat step; finish;
    intros out st H; inversion H; subst; clear H;
    (split; intro Hsave; try discriminate Hsave; try reflexivity);
    intros r Hr Hok; inversion Hr; subst; cbn in Hok; try discriminate Hok;
    do 2 eexists; split; reflexivity.
Qed.

(** C5: a write whose [save] parameter is false issues no save call at
    all; a write whose [save] parameter is left out or true, when it
    succeeds, has saved the workbook right after setting the value of the
    range, and before closing a workbook it opened. *)
Theorem write_saves_unless_told_not_to
  (env : Env) (entries : list (string * value)) (out : exn + value) (st : state) :
  write_range_kw (VDict entries) env init = (out, st) ->
  (lookup "save" entries = Some (VBool false) -> save_calls (trace st) = []) /\
  (lookup "save" entries = None \/ lookup "save" entries = Some (VBool true) ->
   forall r, out = inr r -> is_success r = true ->
   exists wb rng,
     resolved_book (trace st) = Some wb /\
     effects (trace st)
     = (if truthy (kwarg entries "file_path" VNone)
        then [Opened (kwarg entries "file_path" VNone) wb] else [])
         ++ [Wrote rng (kwarg entries "data" VNone); Saved wb]
         ++ (if truthy (kwarg entries "file_path" VNone) then [Closed wb] else [])).
Proof.
  unfold write_range_kw, apply_kwargs.
  destruct (find _ entries) as [[k v]|].
  - intro H. inversion H; subst. split; [reflexivity | discriminate].
  - intro H. apply write_range_saving in H. destruct H as [Hoff Hon].
    split; intro Hsave.
    + apply Hoff. unfold kwarg. now rewrite Hsave.
    + apply Hon. unfold kwarg. now destruct Hsave as [-> | ->].
Qed.

Lemma write_saves_unless_told_not_to_witness :
  save_calls
    (trace (snd (write_range_kw (VDict [("data", VInt 7); ("save", VBool false)])
                   (sim_env true three_sheets) init)))
  = [].
Proof.
  refine (proj1 (write_saves_unless_told_not_to (sim_env true three_sheets)
                   [("data", VInt 7); ("save", VBool false)] _ _ _) _);
    reflexivity.
Defined.

(** What a successful run of [create_chart] did to the document. *)
Lemma create_chart_saving env fp sh dr ct title pos r st :
  create_chart fp sh dr ct title pos env init = (inr r, st) ->
  is_success r = true ->
  exists wb ch kind,
    resolved_book (trace st) = Some wb /\
    save_calls (trace st) = [wb] /\
    effects (trace st)
    = (if truthy fp then [Opened fp wb] else [])
        ++ [Charted ch kind; Saved wb]
        ++ (if truthy fp then [Closed wb] else []) /\
    (truthy fp = false ->
     hd_error (trace st) = Some (Ev BooksActive (inr (Some wb)))).
Proof.
  revert r st. open_handler.
  destruct (xlwings_importable env); [|discriminate].
  destruct (truthy fp), (truthy sh), (truthy title); cbv beta iota;
    repeat step; try found_or_not; repeat step; conclude;
    do 3 eexists; repeat split; try reflexivity; discriminate.
Qed.

(** C10: every successful [create_chart] has saved the workbook it
    resolved, once, after setting up the chart, and when no file path was
    given that workbook is the active one and is not closed; a
    [write_range] whose save flag is false saves nothing. *)
Theorem create_chart_saves_whatever_the_owner :
  (forall env file_path sheet data_range chart_type title position r st,
      create_chart file_path sheet data_range chart_type title position env init
      = (inr r, st) ->
      is_success r = true ->
      exists wb,
        resolved_book (trace st) = Some wb /\
        save_calls (trace st) = [wb] /\
        In (Saved wb) (effects (trace st)) /\
        (truthy file_path = false ->
         hd_error (trace st) = Some (Ev BooksActive (inr (Some wb))) /\
         forall wb', ~ In (Closed wb') (effects (trace st)))) /\
  (forall env file_path sheet range_addr data save out st,
      truthy save = false ->
      write_range file_path sheet range_addr data save env init = (out, st) ->
      forall wb, ~ In (Saved wb) (effects (trace st))).
Proof.
  split.
  - intros env fp sh dr ct title pos r st Hrun Hok.
    destruct (create_chart_saving _ _ _ _ _ _ _ _ _ Hrun Hok)
      as (wb & ch & kind & Hres & Hcalls & Heff & Hhead).
    exists wb. repeat split; trivial.
    + rewrite Heff. apply in_or_app. right. cbn. auto.
    + now apply Hhead.
    + rewrite Heff, H. cbn. intros wb' Hin. intuition discriminate.
  - intros env fp sh ra data save out st Hsave Hrun wb Hin.
    apply saved_was_called in Hin.
    apply write_range_saving in Hrun. destruct Hrun as [Hoff _].
    now rewrite (Hoff Hsave) in Hin.
Qed.

Lemma create_chart_saves_whatever_the_owner_witness :
  exists wb,
    save_calls
      (trace (snd (create_chart VNone VNone (VStr "A1:B10") (VStr "pie") (VStr "Sales")
                     (VStr "E1") (sim_env true three_sheets) init)))
    = [wb].
Proof.
  destruct (proj1 create_chart_saves_whatever_the_owner
              (sim_env true three_sheets)
              VNone VNone (VStr "A1:B10") (VStr "pie") (VStr "Sales") (VStr "E1")
              _ _ eq_refl eq_refl) as (wb & _ & Hcalls & _).
  exists wb. exact Hcalls.
Defined.

(** ** Chart types outside the table *)

Lemma unrecognized_not_in_table (s : string) :
  ~ In s recognized -> assoc s chart_types = None.
Proof.
  unfold recognized. generalize chart_types.
  induction l as [|[k v] l IH]; cbn; [reflexivity|].
  intro H. destruct (String.eqb_spec s k) as [->|_]; [tauto|].
  apply IH. tauto.
Qed.

Section SameUpTo.

Variables (f : value -> value) (env : Env).

Lemma bind_same_up_to {A} (m : M A) (k1 k2 : A -> M value) st :
  (forall a st', same_up_to f (k1 a env st') (k2 a env st')) ->
  same_up_to f (bind m k1 env st) (bind m k2 env st).
Proof.
  intro H. unfold bind. destruct (m env st) as [[e|a] st']; [now split | apply H].
Qed.

Lemma convert_same_up_to x y :
  (forall msg, f (failure msg) = failure msg) ->
  same_up_to f x y -> same_up_to f (convert x) (convert y).
Proof.
  intros Hf [Hst Hout]. destruct x as [ox sx], y as [[e|r0] sy]; cbn in *; subst.
  - split; [reflexivity|]. cbn. now rewrite Hf.
  - now split.
Qed.

End SameUpTo.

(** A successful [create_chart] echoes the chart type it was given and
    has set the host chart type the table gives. *)
Lemma create_chart_echo env fp sh dr s title pos r st :
  create_chart fp sh dr (VStr s) title pos env init = (inr r, st) ->
  is_success r = true ->
  dict_get "chart_type" r = Some (VStr s) /\
  exists ch,
    In (Charted ch (match assoc s chart_types with Some ct => ct | None => "line" end))
       (effects (trace st)).
Proof.
  revert r st. open_handler.
  destruct (xlwings_importable env); [|discriminate].
  destruct (truthy fp), (truthy sh), (truthy title); cbv beta iota;
    repeat step; try found_or_not; repeat step; conclude;
    (split; [reflexivity|]); eexists; cbn; auto.
Qed.

(** C1, as the code has it: with a chart type string outside the six
    names, [create_chart] makes the host calls it makes for "line" and
    ends as that run ends, so it never fails over the chart type, and the
    chart gets the host type "line"; the success result, however, echoes
    the string it was given. *)
Theorem unrecognized_chart_type_acts_as_line
  (env : Env) (file_path sheet data_range title position : value) (s : string) :
  ~ In s ["line"; "bar"; "column"; "pie"; "scatter"; "area"] ->
  let given := create_chart file_path sheet data_range (VStr s) title position env init in
  let line := create_chart file_path sheet data_range (VStr "line") title position env init in
  same_up_to (echoing (VStr s)) given line /\
  forall r, fst given = inr r -> is_success r = true ->
            dict_get "chart_type" r = Some (VStr s) /\
            exists ch, In (Charted ch "line") (effects (trace (snd given))).
Proof.
  intros Hs given line.
  assert (Hnone : assoc s chart_types = None) by now apply unrecognized_not_in_table.
  split.
  - subst given line. unfold create_chart. rewrite !import_then_try.
    destruct (xlwings_importable env); [|now split].
    apply convert_same_up_to; [reflexivity|].
    apply bind_same_up_to. intros [wb|] st1; [|now split].
    apply bind_same_up_to. intros ws st2.
    replace (chart_types_get (VStr s)) with (chart_types_get (VStr "line"))
      by (unfold chart_types_get; now rewrite Hnone).
    repeat (apply bind_same_up_to; intros).
    now split.
  - subst given. clear line. intros r.
    destruct (create_chart _ _ _ (VStr s) _ _ env init) as [out st] eqn:Hrun.
    cbn. intros Hr Hok. subst out.
    destruct (create_chart_echo _ _ _ _ _ _ _ _ _ Hrun Hok) as [Hecho Hkind].
    rewrite Hnone in Hkind. now split.
Qed.

Lemma unrecognized_chart_type_acts_as_line_witness :
  ~ In "donut" ["line"; "bar"; "column"; "pie"; "scatter"; "area"] /\
  same_up_to (echoing (VStr "donut"))
    (create_chart VNone VNone (VStr "A1:B10") (VStr "donut") (VStr "Sales") (VStr "E1")
       (sim_env true three_sheets) init)
    (create_chart VNone VNone (VStr "A1:B10") (VStr "line") (VStr "Sales") (VStr "E1")
       (sim_env true three_sheets) init).
Proof.
  assert (H : ~ In "donut" ["line"; "bar"; "column"; "pie"; "scatter"; "area"])
    by (cbn; intuition discriminate).
  split; [exact H|].
  exact (proj1 (unrecognized_chart_type_acts_as_line
                  (sim_env true three_sheets)
                  VNone VNone (VStr "A1:B10") (VStr "Sales") (VStr "E1") "donut" H)).
Defined.

(** C1 as stated fails: on a workbook where every call succeeds, the
    chart type "donut" is not one of the six names, the run succeeds, and
    the result reports "donut", not "line". *)
Lemma unrecognized_chart_type_is_not_reported_as_line :
  ~ In "donut" ["line"; "bar"; "column"; "pie"; "scatter"; "area"] /\
  exists r,
    fst (create_chart VNone VNone (VStr "A1:B10") (VStr "donut") (VStr "") (VStr "E1")
           (sim_env true three_sheets) init) = inr r /\
    is_success r = true /\
    dict_get "chart_type" r = Some (VStr "donut") /\
    dict_get "chart_type" r <> Some (VStr "line").
Proof.
  split; [cbn; intuition discriminate|].
  eexists. split; [reflexivity|]. cbn. repeat split. discriminate.
Qed.

(** ** The sheets of a workbook *)

(** C9: a successful [list_sheets] returns a list of sheet names and the
    length of that list as its count; on a document whose sheets, in the
    document's order, are [all] and bear the names [name_of] gives, the
    list is those names in that order. *)
Theorem list_sheets_names_in_document_order
  (env : Env) (file_path : value) (r : value) (st : state) :
  list_sheets file_path env init = (inr r, st) ->
  is_success r = true ->
  exists names,
    dict_get "sheets" r = Some (VList (map VStr names)) /\
    dict_get "count" r = Some (VInt (Z.of_nat (length names))) /\
    forall (all : list sheet_handle) (name_of : sheet_handle -> string),
      (forall t wb, host env (list sheet_handle) t (Sheets wb) = inr all) ->
      (forall t ws, In ws all -> host env string t (SheetName ws) = inr (name_of ws)) ->
      names = map name_of all.
Proof.
  revert r st. open_handler.
  destruct (xlwings_importable env); [|discriminate].
  destruct (truthy file_path); cbv beta iota;
    repeat step; try found_or_not; repeat step; try (conclude; fail);
    rewrite bind_run;
    match goal with
    | |- context [for_each ?f ?l ?e ?s] =>
        pose proof (sheet_names_in_order e) as Horder;
        specialize (fun name_of H => Horder name_of l H s);
        destruct (for_each f l e s) as [[err|names] st1]
    end; cbv beta iota;
    repeat step; conclude;
    exists names; (split; [reflexivity|]); (split; [reflexivity|]);
    intros all name_of Hall Hnames;
    match goal with
    | H : host _ _ _ (Sheets _) = inr _ |- _ => rewrite Hall in H; injection H as <-
    end;
    specialize (Horder name_of Hnames); cbn in Horder; now injection Horder.
Qed.

Lemma list_sheets_names_in_document_order_witness :
  exists names,
    dict_get "sheets"
      (VDict [("success", VBool true); ("workbook", VStr "book.xlsx");
              ("sheets", VList [VStr "Sheet1"; VStr "Summary"; VStr "Data"]);
              ("count", VInt 3)])
    = Some (VList (map VStr names)) /\
    dict_get "count"
      (VDict [("success", VBool true); ("workbook", VStr "book.xlsx");
              ("sheets", VList [VStr "Sheet1"; VStr "Summary"; VStr "Data"]);
              ("count", VInt 3)])
    = Some (VInt (Z.of_nat (length names))) /\
    names = ["Sheet1"; "Summary"; "Data"].
Proof.
  destruct (list_sheets_names_in_document_order (sim_env true three_sheets) VNone
              _ _ eq_refl eq_refl) as (names & Hsheets & Hcount & Horder).
  exists names. repeat split; trivial.
  apply (Horder [0; 1; 2] (fun ws => nth ws ["Sheet1"; "Summary"; "Data"] EmptyString));
    reflexivity.
Defined.

(** ** The shape of what [read_range] returns *)

Lemma normalize_scalar (v : value) :
  is_list v = false -> normalize v = VList [VList [v]].
Proof. destruct v; cbn; congruence. Qed.

Lemma normalize_row (cells : list value) :
  cells <> [] -> is_row (VList cells) = true ->
  normalize (VList cells) = VList [VList cells].
Proof.
  destruct cells as [|c cells]; [congruence|]. cbn.
  intros _ H. apply andb_prop in H. destruct H as [Hc _]. now rewrite Hc.
Qed.

Lemma normalize_grid (v : value) : is_grid v = true -> normalize v = v.
Proof.
  destruct v as [| | | |rows| |]; try discriminate. cbn.
  destruct rows as [|first rows]; [reflexivity|]. cbn.
  destruct first; cbn; try discriminate. reflexivity.
Qed.

Lemma normalize_is_grid (v : value) :
  host_shape v = true -> is_grid (normalize v) = true.
Proof.
  unfold host_shape. intro H.
  destruct (is_list v) eqn:Hlist; cbn in H.
  - destruct (is_row v) eqn:Hrow; cbn in H.
    + destruct v as [| | | |cells| |]; try discriminate.
      destruct cells as [|c cells]; [reflexivity|].
      rewrite normalize_row by (congruence || assumption).
      cbn [is_grid forallb]. rewrite Hrow. cbn. now rewrite Nat.eqb_refl.
    + now rewrite normalize_grid.
  - rewrite normalize_scalar by assumption. cbn. now rewrite Hlist.
Qed.

(** C3, as the code has it: a successful read with a true [as_values]
    returns as its data the coercion of the one value the host gave for
    the range: a scalar becomes a 1x1 grid, a non-empty flat list a grid
    of one row, a grid stays as it is; whenever the host's value has one
    of these three shapes the data is a rectangular grid. *)
Theorem read_values_are_a_grid
  (env : Env) (file_path sheet range_addr as_values : value) (r : value) (st : state) :
  truthy as_values = true ->
  read_range file_path sheet range_addr as_values env init = (inr r, st) ->
  is_success r = true ->
  exists v,
    values_read (trace st) = [v] /\
    dict_get "data" r = Some (normalize v) /\
    (host_shape v = true -> is_grid (normalize v) = true) /\
    (is_list v = false -> normalize v = VList [VList [v]]) /\
    (forall cells, v = VList cells -> cells <> [] -> is_row v = true ->
                   normalize v = VList [v]) /\
    (is_grid v = true -> normalize v = v).
Proof.
  intro Hav. revert r st. open_handler. rewrite Hav.
  destruct (xlwings_importable env); [|discriminate].
  destruct (truthy file_path), (truthy sheet); cbv beta iota;
    repeat step; try found_or_not; repeat step; conclude;
    eexists; (split; [reflexivity|]); (split; [reflexivity|]);
    repeat split.
  all: try apply normalize_is_grid; try apply normalize_scalar; try apply normalize_grid.
  all: intros cells -> Hne Hrow; now apply normalize_row.
Qed.

Lemma read_values_are_a_grid_witness :
  exists v,
    values_read
      (trace (snd (read_range VNone VNone (VStr "A1") (VBool true)
                     (sim_env true three_sheets) init)))
    = [v] /\
    is_grid (normalize v) = true.
Proof.
  destruct (read_values_are_a_grid (sim_env true three_sheets)
              VNone VNone (VStr "A1") (VBool true) _ _ eq_refl eq_refl eq_refl)
    as (v & Hread & _ & Hgrid & _).
  exists v. split; [exact Hread|].
  apply Hgrid. cbn in Hread. injection Hread as <-. reflexivity.
Defined.

(** C3 as stated fails: with [as_values] false a successful read returns
    a string as its data, which is no grid. *)
Lemma read_as_text_returns_no_grid :
  exists r,
    fst (read_range_kw (VDict [("as_values", VBool false)])
           (sim_env true three_sheets) init) = inr r /\
    is_success r = true /\
    dict_get "data" r = Some (VStr "?") /\
    is_grid (VStr "?") = false.
Proof. eexists. repeat split. Qed.

(** ** The capability check *)

(** C8: in check mode the process prints one object with the two
    booleans and returns: the first says whether xlwings imports, the
    second whether it imports and an application then starts and quits;
    whatever operation and parameters came along are ignored, the only
    host calls are those of the probe, and without xlwings the host is
    not called at all and reported unavailable. *)
Theorem check_mode_only_probes (env : Env) (args : Args) :
  check args = true ->
  exists st,
    run env args = (inr tt, st) /\
    stdout st = [VDict [("xlwings_available", VBool (xlwings_importable env));
                        ("excel_available",
                         VBool (xlwings_importable env && probe_succeeds env))]] /\
    forallb probe_call (trace st) = true /\
    (xlwings_importable env = false -> trace st = []) /\
    run env args = run env {| check := true; operation := None; params := None |}.
Proof.
  intro Hcheck. unfold run, main, probe_succeeds. rewrite Hcheck. cbn [check].
  unfold check_xlwings, check_excel, catch, import_error, any_exception,
    import_xlwings, pure, bind, ret, perform, print_unescaped, print_error.
  cbv beta. destruct (xlwings_importable env) eqn:Himp; cbn; rewrite ?Himp; cbn.
  - destruct (host env app_handle [] AppNew) as [e|a]; cbn.
    + eexists. repeat split; try reflexivity; easy.
    + destruct (host env unit _ (AppQuit a)) as [e|[]]; cbn;
        eexists; repeat split; try reflexivity; easy.
  - eexists. repeat split; reflexivity.
Qed.

Lemma check_mode_only_probes_witness :
  exists st,
    run (sim_env false three_sheets)
      {| check := true; operation := Some "write"; params := Some "[1]" |}
    = (inr tt, st) /\
    stdout st = [VDict [("xlwings_available", VBool false);
                        ("excel_available", VBool false)]] /\
    trace st = [].
Proof.
  destruct (check_mode_only_probes (sim_env false three_sheets)
              {| check := true; operation := Some "write"; params := Some "[1]" |}
              eq_refl) as (st & Hrun & Hout & _ & Hoff & _).
  exists st. repeat split; trivial. now apply Hoff.
Defined.

(** ** One result object per invocation *)

Create HintDb bridge.

Lemma faithful_ret {A} (a : A) : faithful (ret a).
Proof. intros env st. cbn. auto. Qed.

Lemma faithful_raise {A} (e : exn) : faithful (@raise A e).
Proof. intros env st. cbn. auto. Qed.

Lemma faithful_pure {A} (f : Env -> exn + A) : faithful (pure f).
Proof. intros env st. cbn. auto. Qed.

Lemma faithful_perform {A} (c : call A) : faithful (perform c).
Proof.
  intros env st. unfold perform. cbn. split; [reflexivity|].
  intros e. rewrite raised_app. intro H. apply in_app_or in H.
  destruct H as [H|H]; [now left|]. right.
  destruct (host env A (trace st) c) as [e'|a]; cbn in H; [|tauto].
  destruct H as [->|[]]. reflexivity.
Qed.

Lemma faithful_bind {A B} (m : M A) (k : A -> M B) :
  faithful m -> (forall a, faithful (k a)) -> faithful (bind m k).
Proof.
  intros Hm Hk env st. unfold bind.
  specialize (Hm env st). destruct (m env st) as [[e|a] st1]; cbn in Hm.
  - destruct Hm as [Hout Hm]. split; [exact Hout|]. cbn. intros e0 He0.
    destruct (Hm e0 He0) as [H|H]; [now left|]. injection H as ->. now right.
  - specialize (Hk a env st1). destruct Hm as [Hout Hm], Hk as [Hout' Hk].
    split; [congruence|]. intros e He.
    destruct (Hk e He) as [H|H]; [|now right].
    destruct (Hm e H) as [H'|H']; [now left | discriminate].
Qed.

Lemma faithful_for_each {A B} (f : A -> M B) (l : list A) :
  (forall a, faithful (f a)) -> faithful (for_each f l).
Proof.
  intro Hf. induction l as [|a l IH]; cbn [for_each].
  - apply faithful_ret.
  - apply faithful_bind; [apply Hf|]. intro b.
    apply faithful_bind; [apply IH|]. intro bs. apply faithful_ret.
Qed.

Lemma returns_ret (r : value) : result_object r -> returns_result (ret r).
Proof. intros H env st. exact H. Qed.

Lemma returns_bind {A} (m : M A) (k : A -> M value) :
  (forall a, returns_result (k a)) -> returns_result (bind m k).
Proof.
  intros Hk env st. unfold bind.
  destruct (m env st) as [[e|a] st1]; cbn; [trivial | apply Hk].
Qed.

Lemma failure_is_result (msg : string) : result_object (failure msg).
Proof. right. now exists msg. Qed.

#[local] Hint Resolve faithful_ret faithful_raise faithful_pure faithful_perform
  faithful_bind faithful_for_each returns_ret returns_bind failure_is_result : bridge.
#[local] Hint Extern 2 (faithful (match ?x with _ => _ end)) => destruct x : bridge.
#[local] Hint Extern 2 (returns_result (match ?x with _ => _ end)) => destruct x : bridge.
#[local] Hint Extern 1 (result_object (VDict _)) => left; reflexivity : bridge.

(** What an importable handler makes of a body that is faithful and
    returns result objects. *)
Lemma guarded_body_run (body : M value) env st :
  faithful body -> returns_result body ->
  xlwings_importable env = true ->
  exists r st',
    bind import_xlwings (fun _ => try_except body) env st = (inr r, st') /\
    stdout st' = stdout st /\
    result_object r /\
    forall e, In e (raised (trace st')) ->
              In e (raised (trace st)) \/ r = failure (exn_str e).
Proof.
  intros Hf Hr Himp. rewrite import_then_try, Himp.
  specialize (Hf env st). specialize (Hr env st).
  destruct (body env st) as [[e|r] st1]; cbn in *; destruct Hf as [Hout Hraised].
  - exists (failure (exn_str e)), st1. repeat split; auto with bridge.
    intros e' He'. destruct (Hraised e' He') as [H|H]; [now left|].
    injection H as ->. now right.
  - exists r, st1. repeat split; auto.
    intros e' He'. destruct (Hraised e' He') as [H|H]; [now left | discriminate].
Qed.

Ltac guarded :=
  apply guarded_body_run; trivial;
  unfold open_or_active, pick_sheet, when, chart_types_get, str_of, unpack, sheet_info;
  auto 40 with bridge.

Section Handlers.

Variables (env : Env) (st : state).
Hypothesis importable : xlwings_importable env = true.

Lemma read_range_handled fp sh ra av : handled st (read_range fp sh ra av env st).
Proof. unfold handled, read_range. guarded. Qed.

Lemma write_range_handled fp sh ra data save :
  handled st (write_range fp sh ra data save env st).
Proof. unfold handled, write_range. guarded. Qed.

Lemma run_macro_handled fp name args : handled st (run_macro fp name args env st).
Proof. unfold handled, run_macro. guarded. Qed.

Lemma get_active_info_handled : handled st (get_active_info env st).
Proof. unfold handled, get_active_info. guarded. Qed.

Lemma list_sheets_handled fp : handled st (list_sheets fp env st).
Proof. unfold handled, list_sheets. guarded. Qed.

Lemma create_chart_handled fp sh dr ct title pos :
  handled st (create_chart fp sh dr ct title pos env st).
Proof. unfold handled, create_chart. guarded. Qed.

End Handlers.

(** A parameter bag whose keys the signature has binds every parameter. *)
Lemma apply_kwargs_accepts fname names entries body :
  (forall k, In k (map fst entries) -> In k names) ->
  apply_kwargs fname names (VDict entries) body = body (kwarg entries).
Proof.
  intro Hkeys. unfold apply_kwargs.
  destruct (find _ entries) as [[k v]|] eqn:Hfind; [|reflexivity].
  apply find_some in Hfind. destruct Hfind as [Hin Hmem]. cbn in Hmem.
  assert (Hk : In k names) by (apply Hkeys, in_map_iff; now exists (k, v)).
  assert (Hyes : mem k names = true).
  { unfold mem. apply existsb_exists. exists k. split; [exact Hk | apply String.eqb_refl]. }
  rewrite Hyes in Hmem. discriminate.
Qed.

Lemma load_params_state text env st : snd (load_params text env st) = st.
Proof.
  unfold load_params. destruct text as [s|]; [|reflexivity].
  now destruct (negb (s =? EmptyString)%string).
Qed.

(** C2, as the code has it: in operation mode, an accepted invocation
    leaves the handler with a result object, the failure carrying the
    message of the exception whenever a host call raised; the process
    then prints exactly that object and returns, unless standard output
    cannot encode it, in which case the exception of the final print
    ends the process with nothing printed. *)
Theorem accepted_invocation_prints_its_result (env : Env) (args : Args) :
  check args = false ->
  accepted env args ->
  exists r tr,
    result_object r /\
    (forall e, In e (raised tr) -> r = failure (exn_str e)) /\
    (run env args = (inr tt, {| trace := tr; stdout := [r] |}) \/
     exists e, print_error env r = Some e /\
               run env args = (inl e, {| trace := tr; stdout := [] |})) /\
    (print_error env r = None ->
     run env args = (inr tt, {| trace := tr; stdout := [r] |})).
Proof.
  intros Hcheck Hacc. unfold run, main, accepted in *. rewrite Hcheck.
  assert (Hprint : forall msg,
             exists r tr,
               result_object r /\
               (forall e, In e (raised tr) -> r = failure (exn_str e)) /\
               (print (failure msg) env init = (inr tt, {| trace := tr; stdout := [r] |}) \/
                exists e, print_error env r = Some e /\
                          print (failure msg) env init
                          = (inl e, {| trace := tr; stdout := [] |})) /\
               (print_error env r = None ->
                print (failure msg) env init
                = (inr tt, {| trace := tr; stdout := [r] |}))).
  { intro msg. exists (failure msg), []. repeat split.
    - apply failure_is_result.
    - intros e [].
    - now left. }
  destruct (operation args) as [name|]; [|apply Hprint].
  destruct (String.eqb_spec name EmptyString) as [->|Hname]; [apply Hprint|].
  destruct Hacc as [Hempty | (bag & Hload & Hsig)]; [contradiction|].
  rewrite bind_run.
  pose proof (load_params_state (params args) env init) as Hstate.
  destruct (load_params (params args) env init) as [loaded st0].
  cbn in Hload, Hstate. subst loaded st0.
  assert (Hhandled : forall (handler : M value),
             handled init (handler env init) ->
             exists r tr,
               result_object r /\
               (forall e, In e (raised tr) -> r = failure (exn_str e)) /\
               (bind handler (fun result => print_unescaped result) env init
                = (inr tt, {| trace := tr; stdout := [r] |}) \/
                exists e, print_error env r = Some e /\
                          bind handler (fun result => print_unescaped result) env init
                          = (inl e, {| trace := tr; stdout := [] |})) /\
               (print_error env r = None ->
                bind handler (fun result => print_unescaped result) env init
                = (inr tt, {| trace := tr; stdout := [r] |}))).
  { intros handler (r & [tr out] & Hrun & Hout & Hres & Hraised).
    cbn in Hout. subst out.
    exists r, tr. rewrite bind_run, Hrun. unfold print_unescaped. cbn.
    split; [exact Hres|]. split.
    - intros e He. destruct (Hraised e He) as [[]|H]; exact H.
    - destruct (print_error env r) as [e|]; split; auto.
      + right. now exists e.
      + discriminate. }
  cbn [operations_get operations signature_of signatures] in *.
  repeat match goal with
         | |- context [(name =? ?op)%string] =>
             destruct (name =? op)%string;
             [ destruct Hsig as (Himp & entries & -> & Hkeys); apply Hhandled |]
         end;
    [ unfold read_range_kw | unfold write_range_kw | unfold run_macro_kw
    | unfold get_active_info_kw | unfold list_sheets_kw | unfold create_chart_kw
    | apply Hprint ];
    rewrite apply_kwargs_accepts by assumption.
  - now apply read_range_handled.
  - now apply write_range_handled.
  - now apply run_macro_handled.
  - now apply get_active_info_handled.
  - now apply list_sheets_handled.
  - now apply create_chart_handled.
Qed.

Lemma accepted_invocation_prints_its_result_witness :
  exists r tr,
    run (sim_env true three_sheets)
      {| check := false; operation := Some "run_macro"; params := Some "{}" |}
    = (inr tt, {| trace := tr; stdout := [r] |}) /\
    result_object r.
Proof.
  destruct (accepted_invocation_prints_its_result (sim_env true three_sheets)
              {| check := false; operation := Some "run_macro"; params := Some "{}" |}
              eq_refl) as (r & tr & Hres & _ & _ & Hrun).
  - right. exists (VDict []). split; [reflexivity|]. cbn.
    split; [reflexivity|]. exists []. split; [reflexivity|]. cbn. tauto.
  - exists r, tr. split; [|exact Hres]. apply Hrun.
    unfold print_error. now destruct (ascii_only r).
Defined.

(** C2 as stated fails: a parameter the handler does not have, a
    parameter text that is no JSON, a missing xlwings, and a result that
    standard output cannot encode each end the process with an uncaught
    exception and nothing printed. *)
Lemma uncaught_exits_print_nothing :
  run (sim_env true three_sheets)
    {| check := false; operation := Some "read"; params := Some bogus_params |}
  = (inl (Exn TypeError "read_range() got an unexpected keyword argument 'bogus'"), init) /\
  run (sim_env true three_sheets)
    {| check := false; operation := Some "list_sheets"; params := Some "sheets" |}
  = (inl (Exn ValueError "Expecting value: line 1 column 1 (char 0)"), init) /\
  run (sim_env false three_sheets)
    {| check := false; operation := Some "get_active"; params := None |}
  = (inl (Exn ImportError "No module named 'xlwings'"), init) /\
  run (narrow_env no_documents)
    {| check := false; operation := Some "get_active"; params := None |}
  = (inl (Exn ValueError "'ascii' codec can't encode characters"),
     {| trace := [Ev BooksActive (inr None)]; stdout := [] |}) /\
  stdout init = [].
Proof. repeat split. Qed.

(** * Further properties of the bridge *)

(** ** What a computation is confined to *)

Create HintDb confined.

Section Confined.

Variable allowed : event -> bool.

Lemma confined_ret {A} (a : A) : confined allowed (ret a).
Proof.
  intros env [tr out]. exists []. cbn. now rewrite app_nil_r.
Qed.

Lemma confined_raise {A} (e : exn) : confined allowed (@raise A e).
Proof.
  intros env [tr out]. exists []. cbn. now rewrite app_nil_r.
Qed.

Lemma confined_pure {A} (f : Env -> exn + A) : confined allowed (pure f).
Proof.
  intros env [tr out]. exists []. cbn. now rewrite app_nil_r.
Qed.

Lemma confined_perform {A} (c : call A) :
  (forall outcome, allowed (Ev c outcome) = true) -> confined allowed (perform c).
Proof.
  intros H env st. eexists. split; [reflexivity|]. cbn. now rewrite H.
Qed.

Lemma confined_bind {A B} (m : M A) (k : A -> M B) :
  confined allowed m -> (forall a, confined allowed (k a)) ->
  confined allowed (bind m k).
Proof.
  intros Hm Hk env st. unfold bind.
  destruct (Hm env st) as (evs & Hst & Hevs).
  destruct (m env st) as [[e|a] st1]; cbn in Hst; subst st1.
  - now exists evs.
  - destruct (Hk a env {| trace := trace st ++ evs; stdout := stdout st |})
      as (evs' & Hst' & Hevs').
    exists (evs ++ evs'). rewrite Hst'. cbn. rewrite app_assoc.
    split; [reflexivity|]. rewrite forallb_app, Hevs, Hevs'. reflexivity.
Qed.

Lemma confined_catch {A} (body : M A) (caught : exn -> bool) (handler : exn -> M A) :
  confined allowed body -> (forall e, confined allowed (handler e)) ->
  confined allowed (catch body caught handler).
Proof.
  intros Hb Hh env st. unfold catch.
  destruct (Hb env st) as (evs & Hst & Hevs).
  destruct (body env st) as [[e|a] st1]; cbn in Hst; subst st1.
  - destruct (caught e); [|now exists evs].
    destruct (Hh e env {| trace := trace st ++ evs; stdout := stdout st |})
      as (evs' & Hst' & Hevs').
    exists (evs ++ evs'). rewrite Hst'. cbn. rewrite app_assoc.
    split; [reflexivity|]. rewrite forallb_app, Hevs, Hevs'. reflexivity.
  - now exists evs.
Qed.

Lemma confined_for_each {A B} (f : A -> M B) (l : list A) :
  (forall a, confined allowed (f a)) -> confined allowed (for_each f l).
Proof.
  intro Hf. induction l as [|a l IH]; cbn [for_each].
  - apply confined_ret.
  - apply confined_bind; [apply Hf|]. intro b.
    apply confined_bind; [apply IH|]. intro bs. apply confined_ret.
Qed.

End Confined.

#[local] Hint Resolve confined_ret confined_raise confined_pure confined_bind
  confined_catch confined_for_each : confined.
#[local] Hint Extern 1 (confined _ (perform _)) =>
  apply confined_perform; intro; reflexivity : confined.
#[local] Hint Extern 2 (confined _ (match ?x with _ => _ end)) => destruct x : confined.

(** From a fresh state, the log of a confined computation passes the test. *)
Lemma confined_from_init allowed {A} (m : M A) env :
  confined allowed m ->
  forallb allowed (trace (snd (m env init))) = true /\ stdout (snd (m env init)) = [].
Proof.
  intro H. destruct (H env init) as (evs & -> & Hevs). now split.
Qed.

Ltac confine :=
  unfold read_range, write_range, run_macro, get_active_info, list_sheets, create_chart,
    try_except, import_xlwings, open_or_active, pick_sheet, when, chart_types_get,
    str_of, unpack, sheet_info;
  cbv beta iota;
  auto 40 with confined.


(** ** Operations that only read *)

(** X1: whatever the outcome, [read_range], [list_sheets] and
    [get_active_info] issue no host call that sets a value, runs a macro,
    touches a chart or saves. *)
Theorem read_operations_never_mutate (env : Env) :
  (forall file_path sheet range_addr as_values,
      forallb read_only_call
        (trace (snd (read_range file_path sheet range_addr as_values env init))) = true) /\
  (forall file_path,
      forallb read_only_call (trace (snd (list_sheets file_path env init))) = true) /\
  forallb read_only_call (trace (snd (get_active_info env init))) = true.
Proof.
  repeat split; intros; apply confined_from_init; confine.
Qed.

(** ** The workbook that was already open *)

(** X2: a handler called without a file path never opens a file and never
    closes a workbook, whether it succeeds or fails. *)
Theorem active_workbook_is_never_closed (env : Env) (file_path : value) :
  truthy file_path = false ->
  (forall sheet range_addr as_values,
      forallb shared_call
        (trace (snd (read_range file_path sheet range_addr as_values env init))) = true) /\
  (forall sheet range_addr data save,
      forallb shared_call
        (trace (snd (write_range file_path sheet range_addr data save env init))) = true) /\
  (forall macro_name args,
      forallb shared_call
        (trace (snd (run_macro file_path macro_name args env init))) = true) /\
  forallb shared_call (trace (snd (get_active_info env init))) = true /\
  forallb shared_call (trace (snd (list_sheets file_path env init))) = true /\
  (forall sheet data_range chart_type title position,
      forallb shared_call
        (trace (snd (create_chart file_path sheet data_range chart_type title position
                       env init))) = true).
Proof.
  intro Hfp.
  repeat split; intros; apply confined_from_init;
    unfold read_range, write_range, run_macro, list_sheets, create_chart,
      open_or_active, when;
    rewrite ?Hfp; confine.
Qed.

Lemma active_workbook_is_never_closed_witness :
  forallb shared_call
    (trace (snd (write_range VNone VNone (VStr "B2") (VInt 5) (VBool true)
                   (sim_env true three_sheets) init))) = true.
Proof.
  apply (active_workbook_is_never_closed (sim_env true three_sheets) VNone); reflexivity.
Defined.

(** ** What the process prints *)

Lemma prints_once_print (obj : value) : prints_once (print obj).
Proof. intros env st. cbn. now exists obj. Qed.

Lemma prints_once_bind {A B} (m : M A) (k : A -> M B) :
  confined any_call m -> (forall a, prints_once (k a)) -> prints_once (bind m k).
Proof.
  intros Hm Hk env st. unfold bind.
  destruct (Hm env st) as (evs & Hst & _).
  destruct (m env st) as [[e|a] st1]; cbn in Hst; subst st1; [reflexivity|].
  apply (Hk a env {| trace := trace st ++ evs; stdout := stdout st |}).
Qed.

Lemma apply_kwargs_confined fname names bag body :
  (forall arg, confined any_call (body arg)) ->
  confined any_call (apply_kwargs fname names bag body).
Proof.
  intro H. unfold apply_kwargs.
  destruct bag; auto with confined.
Qed.

(** No handler of the registry prints. *)
Lemma registered_confined name op_func :
  operations_get name operations = Some op_func ->
  forall bag, confined any_call (op_func bag).
Proof.
  cbn [operations_get operations].
  repeat match goal with
         | |- context [(name =? ?op)%string] => destruct (name =? op)%string
         end;
    intro H; try discriminate H; injection H as <-; intro bag;
    apply apply_kwargs_confined; intro arg; confine.
Qed.

Lemma load_params_confined text : confined any_call (load_params text).
Proof.
  unfold load_params. destruct text as [s|]; auto with confined.
Qed.

Lemma check_xlwings_confined : confined any_call check_xlwings.
Proof. unfold check_xlwings, import_xlwings. auto 10 with confined. Qed.

Lemma check_excel_confined : confined any_call check_excel.
Proof. unfold check_excel, import_xlwings. auto 10 with confined. Qed.

Lemma prints_once_print_unescaped (obj : value) : prints_once (print_unescaped obj).
Proof.
  intros env st. unfold print_unescaped.
  destruct (print_error env obj); cbn; [reflexivity | now exists obj].
Qed.

Lemma main_prints_once (args : Args) : prints_once (main args).
Proof.
  unfold main. destruct (check args).
  - apply prints_once_bind; [apply check_xlwings_confined|]. intro a.
    apply prints_once_bind; [|intro b; apply prints_once_print_unescaped].
    apply confined_bind; [apply check_xlwings_confined|].
    intros []; [apply check_excel_confined | apply confined_ret].
  - destruct (operation args) as [name|]; [|apply prints_once_print].
    destruct (name =? EmptyString)%string; [apply prints_once_print|].
    apply prints_once_bind; [apply load_params_confined|]. intro bag.
    destruct (operations_get name operations) as [op_func|] eqn:Hop;
      [|apply prints_once_print].
    apply prints_once_bind; [|intro r; apply prints_once_print_unescaped].
    now apply (registered_confined name).
Qed.

(** X3: in every mode and on every input, a run that returns has printed
    exactly one object, and a run that ends in an uncaught exception, be
    it one of the final print, has printed nothing; no handler of the
    registry prints, whatever bag and state it is called with. *)
Theorem one_object_or_none (env : Env) (args : Args) :
  match run env args with
  | (inr _, st) => length (stdout st) = 1
  | (inl _, st) => stdout st = []
  end /\
  Forall
    (fun entry => forall bag st, stdout (snd (snd entry bag env st)) = stdout st)
    operations.
Proof.
  split.
  - unfold run. pose proof (main_prints_once args env init) as H.
    destruct (main args env init) as [[e|[]] st]; [exact H|].
    destruct H as [obj ->]. reflexivity.
  - apply Forall_forall. intros [name op_func] Hin bag st. cbn [snd].
    assert (Hget : operations_get name operations = Some op_func).
    { cbn in Hin.
      repeat (destruct Hin as [Hin|Hin]; [injection Hin as <- <-; reflexivity|]).
      destruct Hin. }
    destruct (registered_confined name op_func Hget bag env st) as (evs & -> & _).
    reflexivity.
Qed.

(** ** Names that are not in the registry *)

Lemma unregistered_get (name : string) :
  ~ In name registered -> operations_get name operations = None.
Proof.
  unfold registered. generalize operations.
  induction l as [|[k f] l IH]; cbn; [reflexivity|].
  intro H. destruct (String.eqb_spec name k) as [->|_]; [tauto|].
  apply IH. tauto.
Qed.

(** X4: with an operation name outside the registry, the parameter text
    is decoded first: when it decodes, the process prints the
    unknown-operation failure and calls neither xlwings nor the host;
    when it does not, the decoder's exception ends the process. *)
Theorem unknown_operation_is_reported_after_decoding
  (env : Env) (args : Args) (name : string) :
  check args = false ->
  operation args = Some name ->
  name <> EmptyString ->
  ~ In name ["read"; "write"; "run_macro"; "get_active"; "list_sheets"; "create_chart"] ->
  run env args
  = match fst (load_params (params args) env init) with
    | inr _ => (inr tt, {| trace := []; stdout := [failure ("未知操作: " ++ name)] |})
    | inl e => (inl e, init)
    end.
Proof.
  intros Hcheck Hop Hname Hout. unfold run, main. rewrite Hcheck, Hop.
  destruct (String.eqb_spec name EmptyString) as [|_]; [contradiction|].
  rewrite bind_run.
  pose proof (load_params_state (params args) env init) as Hstate.
  destruct (load_params (params args) env init) as [[e|bag] st0];
    cbn in Hstate; subst st0; [reflexivity|].
  now rewrite (unregistered_get name Hout).
Qed.

Lemma unknown_operation_is_reported_after_decoding_witness :
  run (sim_env false no_documents)
    {| check := false; operation := Some "delete"; params := Some "{}" |}
  = (inr tt, {| trace := []; stdout := [failure "未知操作: delete"] |}).
Proof.
  apply (unknown_operation_is_reported_after_decoding (sim_env false no_documents)
           {| check := false; operation := Some "delete"; params := Some "{}" |}
           "delete"); try reflexivity; try discriminate.
  cbn. intuition discriminate.
Defined.

(** ** Calls that never reach a handler's [try] *)

Lemma apply_kwargs_rejects fname names bag body env st :
  match bag with
  | VDict entries => exists k, In k (map fst entries) /\ ~ In k names
  | _ => True
  end ->
  exists msg, apply_kwargs fname names bag body env st = (inl (Exn TypeError msg), st).
Proof.
  unfold apply_kwargs. destruct bag; try (intros _; eexists; reflexivity).
  intros (k & Hin & Hout).
  destruct (find _ entries) as [[k' v']|] eqn:Hfind; [eexists; reflexivity|].
  exfalso. apply Hout. apply in_map_iff in Hin. destruct Hin as ([k0 v] & <- & Hin).
  apply (find_none _ _ Hfind) in Hin. cbn in Hin.
  apply negb_false_iff in Hin. unfold mem in Hin.
  apply existsb_exists in Hin. destruct Hin as (n & Hn & Heq).
  apply String.eqb_eq in Heq. now subst.
Qed.

Lemma handler_needs_xlwings (body : M value) env st :
  xlwings_importable env = false ->
  bind import_xlwings (fun _ => try_except body) env st
  = (inl (Exn ImportError "No module named 'xlwings'"), st).
Proof. intro H. now rewrite import_then_try, H. Qed.

(** Entering the branch of [main] that calls a registered handler. *)
Ltac enter_operation Hcheck Hop Hsig Hload :=
  unfold run, main; rewrite Hcheck, Hop;
  match goal with
  | |- context [(?name =? EmptyString)%string] =>
      destruct (String.eqb_spec name EmptyString) as [->|_]; [discriminate Hsig|]
  end;
  rewrite bind_run;
  match goal with
  | |- context [load_params ?p ?env init] =>
      let Hstate := fresh "Hstate" in
      pose proof (load_params_state p env init) as Hstate;
      destruct (load_params p env init) as [loaded st0];
      cbn in Hload, Hstate; subst loaded st0
  end;
  revert Hsig; cbn [operations_get operations signature_of signatures];
  repeat match goal with
         | |- context [(?name =? ?op)%string] =>
             destruct (name =? op)%string;
             [ intro Hsig; injection Hsig as <-; rewrite bind_run |]
         end;
  [ unfold read_range_kw | unfold write_range_kw | unfold run_macro_kw
  | unfold get_active_info_kw | unfold list_sheets_kw | unfold create_chart_kw
  | discriminate ].

(** X5: for a registered operation, a parameter bag that is not a JSON
    object, or that has a key the handler's signature lacks, ends the
    process with an uncaught [TypeError]: no host call is made and nothing
    is printed. *)
Theorem rejected_bag_ends_the_process
  (env : Env) (args : Args) (name : string) (names : list string) (bag : value) :
  check args = false ->
  operation args = Some name ->
  signature_of name signatures = Some names ->
  fst (load_params (params args) env init) = inr bag ->
  match bag with
  | VDict entries => exists k, In k (map fst entries) /\ ~ In k names
  | _ => True
  end ->
  exists msg, run env args = (inl (Exn TypeError msg), init).
Proof.
  intros Hcheck Hop Hsig Hload Hbag.
  enter_operation Hcheck Hop Hsig Hload;
    match goal with
    | |- context [apply_kwargs ?f ?n ?b ?body ?e ?s] =>
        destruct (apply_kwargs_rejects f n b body e s Hbag) as [msg ->]
    end; now exists msg.
Qed.

Lemma rejected_bag_ends_the_process_witness :
  exists msg,
    run (sim_env true three_sheets)
      {| check := false; operation := Some "get_active"; params := Some bogus_params |}
    = (inl (Exn TypeError msg), init).
Proof.
  apply (rejected_bag_ends_the_process (sim_env true three_sheets)
           {| check := false; operation := Some "get_active"; params := Some bogus_params |}
           "get_active" [] (VDict [("bogus", VInt 1)])); try reflexivity.
  exists "bogus". split; [now left | intros []].
Defined.

(** X6: for a registered operation whose parameter bag binds, a missing
    xlwings ends the process with the uncaught [ImportError] of the
    handler's import, before any host call and with nothing printed. *)
Theorem missing_xlwings_ends_the_process
  (env : Env) (args : Args) (name : string) (names : list string)
  (entries : list (string * value)) :
  check args = false ->
  operation args = Some name ->
  signature_of name signatures = Some names ->
  fst (load_params (params args) env init) = inr (VDict entries) ->
  (forall k, In k (map fst entries) -> In k names) ->
  xlwings_importable env = false ->
  run env args = (inl (Exn ImportError "No module named 'xlwings'"), init).
Proof.
  intros Hcheck Hop Hsig Hload Hkeys Himp.
  enter_operation Hcheck Hop Hsig Hload;
    rewrite apply_kwargs_accepts by assumption;
    unfold read_range, write_range, run_macro, get_active_info, list_sheets, create_chart;
    now rewrite handler_needs_xlwings.
Qed.

Lemma missing_xlwings_ends_the_process_witness :
  run (sim_env false three_sheets)
    {| check := false; operation := Some "list_sheets"; params := None |}
  = (inl (Exn ImportError "No module named 'xlwings'"), init).
Proof.
  apply (missing_xlwings_ends_the_process (sim_env false three_sheets)
           {| check := false; operation := Some "list_sheets"; params := None |}
           "list_sheets" list_sheets_params []); try reflexivity.
  intros k [].
Defined.

(** ** The capability probe *)

(** X7: the check reports xlwings as it imports, and Excel as
    available exactly when xlwings imports, an application starts and
    that application quits. *)
Theorem check_reports_the_probe (env : Env) (args : Args) :
  check args = true ->
  stdout (snd (run env args))
  = [VDict [("xlwings_available", VBool (xlwings_importable env));
            ("excel_available",
             VBool (xlwings_importable env && probe_succeeds env))]].
Proof.
  intro Hcheck. unfold run, main, probe_succeeds. rewrite Hcheck.
  unfold check_xlwings, check_excel, catch, import_error, any_exception,
    import_xlwings, pure, bind, ret, perform, print_unescaped, print_error.
  cbv beta. destruct (xlwings_importable env) eqn:Himp; cbn; rewrite ?Himp; cbn;
    [|reflexivity].
  destruct (host env app_handle [] AppNew) as [e|a]; cbn; [reflexivity|].
  now destruct (host env unit _ (AppQuit a)) as [e|[]].
Qed.

Lemma check_reports_the_probe_witness :
  stdout (snd (run (sim_env true three_sheets)
                 {| check := true; operation := None; params := None |}))
  = [VDict [("xlwings_available", VBool true); ("excel_available", VBool true)]].
Proof.
  apply (check_reports_the_probe (sim_env true three_sheets)
           {| check := true; operation := None; params := None |}).
  reflexivity.
Defined.

(** ** The coercion of [read_range] on any value *)

(** X8: whatever the host returns, the coerced data is a list whose
    first element, if there is one, is a list; an empty list is the only
    value that stays without rows; and coercing twice changes nothing. *)
Theorem normalize_shape_and_idempotence (v : value) :
  (exists rows,
      normalize v = VList rows /\
      match rows with
      | first :: _ => is_list first = true
      | [] => v = VList []
      end) /\
  normalize (normalize v) = normalize v.
Proof.
  destruct v as [| | | |items| |]; try (split; [eexists; split|]; reflexivity).
  destruct items as [|first items]; [split; [eexists; split|]; reflexivity|].
  cbn. destruct (is_list first) eqn:Hfirst; cbn.
  - split; [eexists; split; [reflexivity | exact Hfirst] |]. now rewrite Hfirst.
  - split; [eexists; split|]; reflexivity.
Qed.

(** ** Changes come in order *)

(** X9: whatever the outcome, [write_range] writes at most once, and
    only the data it was given, and saves only after that write returned;
    [create_chart] saves only after the chart type was set. *)
Theorem saving_comes_last (env : Env) :
  (forall file_path sheet range_addr data save,
      write_then_save data
        (trace (snd (write_range file_path sheet range_addr data save env init)))) /\
  (forall file_path sheet data_range chart_type title position,
      chart_then_save
        (trace (snd (create_chart file_path sheet data_range chart_type title position
                       env init)))).
Proof.
  split; intros; open_handler.
  - destruct (xlwings_importable env); [|reflexivity].
    destruct (truthy file_path), (truthy sheet), (truthy save); cbv beta iota;
      repeat step; try found_or_not; repeat step; finish;
      unfold write_then_save; cbn; auto.
  - destruct (xlwings_importable env); [|reflexivity].
    destruct (truthy file_path), (truthy sheet), (truthy title); cbv beta iota;
      repeat step; try found_or_not; repeat step; finish;
      unfold chart_then_save; cbn; auto.
Qed.

(** ** Chart types that cannot be looked up *)

(** X10: a chart type that is a list or a dictionary makes the lookup
    in the table raise inside the handler: no chart is added, nothing is
    saved, an opened workbook is not closed, and once the workbook was
    resolved without an error of the host the result is the failure with
    Python's "unhashable type" message. *)
Theorem unhashable_chart_type_fails_before_charting
  (env : Env) (file_path sheet data_range chart_type title position : value)
  (out : exn + value) (st : state) :
  unhashable chart_type = true ->
  create_chart file_path sheet data_range chart_type title position env init = (out, st) ->
  chart_calls (trace st) = [] /\
  save_calls (trace st) = [] /\
  (forall wb, ~ In (Closed wb) (effects (trace st))) /\
  (raised (trace st) = [] ->
   forall wb, resolved_book (trace st) = Some wb ->
   out = inr (failure ("unhashable type: '" ++ type_name chart_type ++ "'"))).
Proof.
  intro Hct. revert out st. open_handler.
  destruct (xlwings_importable env);
    [|intros out st H; inversion H; subst; cbn; repeat split; try tauto; discriminate].
  destruct chart_type; try discriminate Hct;
    destruct (truthy file_path), (truthy sheet); cbv beta iota;
    repeat step; try found_or_not; repeat step; finish;
    intros out st H; inversion H; subst; clear H; cbn;
    repeat split; try tauto; try discriminate; intros wb Hin; intuition discriminate.
Qed.

Lemma unhashable_chart_type_fails_before_charting_witness :
  fst (create_chart VNone VNone (VStr "A1:B10") (VList [VStr "pie"]) (VStr "Sales")
         (VStr "E1") (sim_env true three_sheets) init)
  = inr (failure "unhashable type: 'list'").
Proof.
  refine (proj2 (proj2 (proj2
            (unhashable_chart_type_fails_before_charting (sim_env true three_sheets)
               VNone VNone (VStr "A1:B10") (VList [VStr "pie"]) (VStr "Sales") (VStr "E1")
               _ _ eq_refl eq_refl))) eq_refl 0 eq_refl).
Defined.

(** ** The title of a chart *)

(** X11: with an empty (falsy) title [create_chart] never touches the
    chart title; with any other title a successful run has switched the
    title on and then set its text to the title given, once. *)
Theorem chart_title_is_set_only_when_given
  (env : Env) (file_path sheet data_range chart_type title position : value)
  (out : exn + value) (st : state) :
  create_chart file_path sheet data_range chart_type title position env init = (out, st) ->
  (truthy title = false -> title_calls (trace st) = []) /\
  (truthy title = true ->
   forall r, out = inr r -> is_success r = true ->
   title_calls (trace st) = [inl true; inr title]).
Proof.
  revert out st. open_handler.
  destruct (xlwings_importable env);
    [|intros out st H; inversion H; subst; split; [reflexivity | discriminate]].
  destruct (truthy file_path), (truthy sheet), (truthy title); cbv beta iota;
    repeat step; try found_or_not; repeat step; finish;
    intros out st H; inversion H; subst; clear H;
    (split; intro Ht; try discriminate Ht; try reflexivity);
    intros r Hr Hok; inversion Hr; subst; cbn in Hok; try discriminate Hok; reflexivity.
Qed.

Lemma chart_title_is_set_only_when_given_witness :
  title_calls
    (trace (snd (create_chart VNone VNone (VStr "A1:B10") (VStr "bar") (VStr "")
                   (VStr "E1") (sim_env true three_sheets) init)))
  = [].
Proof.
  refine (proj1 (chart_title_is_set_only_when_given (sim_env true three_sheets)
                   VNone VNone (VStr "A1:B10") (VStr "bar") (VStr "") (VStr "E1")
                   _ _ eq_refl) eq_refl).
Defined.

(** ** Running a macro *)

(** X12: a successful [run_macro] has run the macro exactly once, with no
    arguments when [args] is falsy and with the items of [args] when it is
    a list, and returns what that run returned; whatever the outcome,
    [run_macro] runs the macro at most once and never saves. *)
Theorem run_macro_forwards_arguments_and_result
  (env : Env) (file_path macro_name args : value) (out : exn + value) (st : state) :
  run_macro file_path macro_name args env init = (out, st) ->
  save_calls (trace st) = [] /\
  length (macro_runs (trace st)) <= 1 /\
  forall r, out = inr r -> is_success r = true ->
    exists m actuals ret,
      macro_runs (trace st) = [(m, actuals, inr ret)] /\
      dict_get "return_value" r = Some ret /\
      (truthy args = false -> actuals = []) /\
      (forall items, args = VList items -> actuals = items).
Proof.
  revert out st. open_handler.
  destruct (xlwings_importable env);
    [|intros out st H; inversion H; subst; cbn; repeat split; [lia | discriminate]].
  destruct (truthy file_path), (truthy args) eqn:Hargs; cbv beta iota;
    repeat step; try found_or_not; repeat step; finish;
    intros out st H; inversion H; subst; clear H; cbn;
    (split; [reflexivity|]); (split; [lia|]);
    intros r Hr Hok; inversion Hr; subst; cbn in Hok; try discriminate Hok;
    do 3 eexists; (split; [reflexivity|]); (split; [reflexivity|]);
    (split; [intro Hno; try discriminate Hno; try reflexivity |]);
    intros items ->; cbn in *;
    first [congruence | destruct items; [reflexivity | discriminate]].
Qed.

Lemma run_macro_forwards_arguments_and_result_witness :
  save_calls
    (trace (snd (run_macro VNone (VStr "Refresh") (VList [VInt 1; VInt 2])
                   (sim_env true three_sheets) init)))
  = [].
Proof.
  refine (proj1 (run_macro_forwards_arguments_and_result (sim_env true three_sheets)
                   VNone (VStr "Refresh") (VList [VInt 1; VInt 2]) _ _ eq_refl)).
Defined.

(** ** The sheets of the active workbook *)

Lemma for_each_Forall2 {A B} (P : A -> B -> Prop) (f : A -> M B) env (l : list A) :
  (forall a st b st', f a env st = (inr b, st') -> P a b) ->
  forall st bs st', for_each f l env st = (inr bs, st') -> Forall2 P l bs.
Proof.
  intro Hf. induction l as [|a l IH]; cbn [for_each]; intros st bs st' H.
  - inversion H; subst. constructor.
  - rewrite bind_run in H. destruct (f a env st) as [[e|b] st1] eqn:Ea; [discriminate|].
    rewrite bind_run in H.
    destruct (for_each f l env st1) as [[e|bs'] st2] eqn:El; [discriminate|].
    inversion H; subst. constructor; eauto.
Qed.

(** The entry [get_active_info] makes for one sheet. *)
Lemma sheet_info_entry env (name_of : sheet_handle -> string) ws st info st' :
  (forall t, host env string t (SheetName ws) = inr (name_of ws)) ->
  sheet_info ws env st = (inr info, st') ->
  dict_get "name" info = Some (VStr (name_of ws)) /\
  ((forall t, host env (option range_handle) t (UsedRange ws) = inr None) ->
   info = VDict [("name", VStr (name_of ws)); ("used_range", VNone);
                 ("rows", VInt 0); ("cols", VInt 0)]).
Proof.
  intro Hname. revert info st'. unfold sheet_info.
  repeat step; try found_or_not; repeat step; unfold ret;
    intros info st' H; inversion H; subst; clear H;
    repeat match goal with
           | H : host _ _ _ (SheetName _) = _ |- _ =>
               rewrite Hname in H; injection H as <-
           end;
    (split; [reflexivity|]); intro Hnone;
    match goal with
    | H : host _ _ _ (UsedRange _) = _ |- _ => rewrite Hnone in H; try discriminate H
    end; reflexivity.
Qed.

(** X13: on a workbook whose sheets, in order, are [all] and bear the
    names [name_of] gives, a successful [get_active_info] lists one entry
    per sheet, in that order, under the sheet's name; a sheet without a
    used range is listed with no address and zero rows and columns. *)
Theorem get_active_info_describes_every_sheet
  (env : Env) (all : list sheet_handle) (name_of : sheet_handle -> string)
  (r : value) (st : state) :
  (forall t wb, host env (list sheet_handle) t (Sheets wb) = inr all) ->
  (forall t ws, host env string t (SheetName ws) = inr (name_of ws)) ->
  get_active_info env init = (inr r, st) ->
  is_success r = true ->
  exists infos,
    dict_get "sheets" r = Some (VList infos) /\
    Forall2
      (fun ws info =>
         dict_get "name" info = Some (VStr (name_of ws)) /\
         ((forall t, host env (option range_handle) t (UsedRange ws) = inr None) ->
          info = VDict [("name", VStr (name_of ws)); ("used_range", VNone);
                        ("rows", VInt 0); ("cols", VInt 0)]))
      all infos.
Proof.
  intros Hall Hnames. revert r st. open_handler.
  destruct (xlwings_importable env); [|discriminate].
  repeat step; try found_or_not; repeat step; try (conclude; fail).
  rewrite bind_run.
  match goal with
  | Hs : host _ _ _ (Sheets _) = inr _ |- _ => rewrite Hall in Hs; injection Hs as <-
  end.
  match goal with
  | |- context [for_each sheet_info all ?e ?s] =>
      destruct (for_each sheet_info all e s) as [[err|infos] st1] eqn:Einfos
  end; cbv beta iota; [conclude|].
  apply (for_each_Forall2
           (fun ws info =>
              dict_get "name" info = Some (VStr (name_of ws)) /\
              ((forall t, host env (option range_handle) t (UsedRange ws) = inr None) ->
               info = VDict [("name", VStr (name_of ws)); ("used_range", VNone);
                             ("rows", VInt 0); ("cols", VInt 0)]))) in Einfos;
    [|intros ws s0 info s1; now apply sheet_info_entry].
  repeat step; conclude; exists infos; split; [reflexivity | exact Einfos].
Qed.

Lemma get_active_info_describes_every_sheet_witness :
  exists infos,
    length infos = 3 /\
    map (dict_get "name") infos
    = [Some (VStr "Sheet1"); Some (VStr "Summary"); Some (VStr "Data")].
Proof.
  let run := eval vm_compute in (get_active_info (sim_env true three_sheets) init) in
  lazymatch run with
  | (inr ?r, ?st) =>
      assert (Hrun : get_active_info (sim_env true three_sheets) init = (inr r, st))
        by (vm_compute; reflexivity)
  end.
  destruct (get_active_info_describes_every_sheet (sim_env true three_sheets)
              [0; 1; 2] (fun ws => nth ws ["Sheet1"; "Summary"; "Data"] EmptyString)
              _ _ (fun _ _ => eq_refl) (fun _ _ => eq_refl) Hrun eq_refl)
    as (infos & Hsheets & Hall).
  exists infos. split; [symmetry; exact (Forall2_length Hall)|].
  vm_compute in Hsheets. injection Hsheets as <-. reflexivity.
Defined.

(** ** No operation name *)

(** X14: without an operation name, or with an empty one, the process
    prints the missing-operation failure and returns: the parameter text
    is not decoded, xlwings is not imported, the host is not called. *)
Theorem missing_operation_is_reported_first (env : Env) (args : Args) :
  check args = false ->
  operation args = None \/ operation args = Some EmptyString ->
  run env args = (inr tt, {| trace := []; stdout := [failure "未指定操作"] |}).
Proof.
  intros Hcheck Hop. unfold run, main. rewrite Hcheck.
  now destruct Hop as [-> | ->].
Qed.

Lemma missing_operation_is_reported_first_witness :
  run (sim_env false no_documents)
    {| check := false; operation := None; params := Some "not json" |}
  = (inr tt, {| trace := []; stdout := [failure "未指定操作"] |}).
Proof.
  apply (missing_operation_is_reported_first (sim_env false no_documents)
           {| check := false; operation := None; params := Some "not json" |});
    [reflexivity | now left].
Defined.

(** ** What the host chart is given *)

(** X15: a successful [create_chart] has set the host chart type the
    table gives for a name it knows, and "line" for a chart type that is
    no string at all (null, a number, a boolean); either way the result
    carries the chart type as it was passed in. *)
Theorem chart_type_is_mapped_for_the_host_only
  (env : Env) (file_path sheet data_range chart_type title position : value)
  (r : value) (st : state) :
  create_chart file_path sheet data_range chart_type title position env init = (inr r, st) ->
  is_success r = true ->
  dict_get "chart_type" r = Some chart_type /\
  exists ch kind,
    In (Charted ch kind) (effects (trace st)) /\
    (forall s ct, chart_type = VStr s -> assoc s chart_types = Some ct -> kind = ct) /\
    (type_name chart_type <> "str" -> kind = "line").
Proof.
  revert r st. open_handler.
  destruct (xlwings_importable env); [|discriminate].
  destruct (truthy file_path), (truthy sheet), (truthy title); cbv beta iota;
    repeat step; try found_or_not; repeat step; conclude;
    (split; [reflexivity|]); do 2 eexists; (split; [cbn; eauto|]);
    (split;
     [ intros s ct -> Hassoc; cbn in *; rewrite Hassoc in *; congruence
     | intro Hty; destruct chart_type; cbn in *; congruence ]).
Qed.

Lemma chart_type_is_mapped_for_the_host_only_witness :
  exists ch,
    In (Charted ch "xy_scatter")
       (effects (trace (snd (create_chart VNone VNone (VStr "A1:B10") (VStr "scatter")
                               (VStr "") (VStr "E1") (sim_env true three_sheets) init)))).
Proof.
  destruct (chart_type_is_mapped_for_the_host_only (sim_env true three_sheets)
              VNone VNone (VStr "A1:B10") (VStr "scatter") (VStr "") (VStr "E1")
              _ _ eq_refl eq_refl) as (_ & ch & kind & Hin & Hkind & _).
  exists ch. now rewrite <- (Hkind "scatter" "xy_scatter" eq_refl eq_refl).
Defined.

(** ** Arguments that cannot be unpacked *)

(** X16: when [args] is truthy but no list and iterating it raises, the
    exception is raised inside the handler's [try]: the macro is never
    run, and once the workbook was resolved and the macro looked up
    without an error of the host, the result is the failure carrying the
    message of that exception. *)
Theorem unpacking_failure_is_reported
  (env : Env) (file_path macro_name args : value) (e : exn)
  (out : exn + value) (st : state) :
  truthy args = true ->
  is_list args = false ->
  py_iter env args = inl e ->
  run_macro file_path macro_name args env init = (out, st) ->
  macro_runs (trace st) = [] /\
  (raised (trace st) = [] ->
   forall wb, resolved_book (trace st) = Some wb ->
   out = inr (failure (exn_str e))).
Proof.
  intros Hargs Hlist Hiter. revert out st. open_handler. rewrite Hargs.
  destruct (xlwings_importable env);
    [|intros out st H; inversion H; subst; cbn; split; [reflexivity | discriminate]].
  destruct args; try discriminate Hlist;
    destruct (truthy file_path); cbv beta iota;
    repeat step; try found_or_not; repeat step; finish;
    intros out st H; inversion H; subst; clear H; cbn;
    repeat match goal with
           | Hp : py_iter _ _ = _ |- _ =>
               rewrite Hiter in Hp; first [discriminate Hp | injection Hp as <-]
           end;
    (split; [reflexivity|]); intros Hraised wb Hwb;
    try discriminate Hraised; try discriminate Hwb; reflexivity.
Qed.

Lemma unpacking_failure_is_reported_witness :
  fst (run_macro VNone (VStr "Refresh") (VInt 5) (sim_env true three_sheets) init)
  = inr (failure "argument after * must be an iterable").
Proof.
  refine (proj2 (unpacking_failure_is_reported (sim_env true three_sheets)
                   VNone (VStr "Refresh") (VInt 5)
                   (Exn TypeError "argument after * must be an iterable")
                   _ _ eq_refl eq_refl eq_refl eq_refl) eq_refl 0 eq_refl).
Defined.
